(** * GstSyncClient: the reconciliation and seek state machine of
      gst-libs/gst/sync-server/sync-client.c

    The client object is embedded as a record, the handlers
    ([set_base_time], [update_pipeline], [bus_cb], [update_sync_info]) as
    functions in a small state/log/fault monad.  Everything the handlers ask
    of GStreamer (the pipeline, the bus, the network clock) is recorded, in
    program order, as a list of [Call]s; what GStreamer answers is supplied
    by an [Env] record. *)

From Stdlib Require Import ZArith List String Bool Lia.
Import ListNotations.
Open Scope Z_scope.

(** ** Clock times: guint64 with wrap-around *)

Module Clock.

(** [GstClockTime] is a [guint64]; values are kept as [Z] and every
    arithmetic operation of the source is followed by the reduction
    modulo 2^64 that C performs. *)
Definition GstClockTime := Z.

Definition wrap64 (z : Z) : GstClockTime := z mod 2 ^ 64.

Definition add64 (a b : GstClockTime) : GstClockTime := wrap64 (a + b).
Definition sub64 (a b : GstClockTime) : GstClockTime := wrap64 (a - b).

(** GStreamer's gstclock.h: nanosecond units. *)
Definition GST_SECOND : GstClockTime := 1000000000.
Definition GST_MSECOND : GstClockTime := GST_SECOND / 1000.
Definition GST_CLOCK_TIME_NONE : GstClockTime := 2 ^ 64 - 1.

(** [#define DEFAULT_SEEK_TOLERANCE (200 * GST_MSECOND)] *)
Definition DEFAULT_SEEK_TOLERANCE : GstClockTime := 200 * GST_MSECOND.

Definition in_u64 (z : Z) : Prop := 0 <= z < 2 ^ 64.

End Clock.
Import Clock.

(** ** Data model *)

(** The anonymous enum [NEED_SEEK, IN_SEEK, DONE_SEEK] held in
    [self->seek_state]. *)
Inductive SeekState : Type := NEED_SEEK | IN_SEEK | DONE_SEEK.

Definition SeekState_eqb (a b : SeekState) : bool :=
  match a, b with
  | NEED_SEEK, NEED_SEEK | IN_SEEK, IN_SEEK | DONE_SEEK, DONE_SEEK => true
  | _, _ => false
  end.

(** GStreamer's [GstState] and [GstStateChangeReturn]. *)
Inductive GstState : Type :=
| GST_STATE_VOID_PENDING
| GST_STATE_NULL
| GST_STATE_READY
| GST_STATE_PAUSED
| GST_STATE_PLAYING.

Definition GstState_eqb (a b : GstState) : bool :=
  match a, b with
  | GST_STATE_VOID_PENDING, GST_STATE_VOID_PENDING
  | GST_STATE_NULL, GST_STATE_NULL
  | GST_STATE_READY, GST_STATE_READY
  | GST_STATE_PAUSED, GST_STATE_PAUSED
  | GST_STATE_PLAYING, GST_STATE_PLAYING => true
  | _, _ => false
  end.

Inductive GstStateChangeReturn : Type :=
| GST_STATE_CHANGE_FAILURE
| GST_STATE_CHANGE_SUCCESS
| GST_STATE_CHANGE_ASYNC
| GST_STATE_CHANGE_NO_PREROLL.

(** [GstSyncServerInfo], read through its getters only. *)
Record GstSyncServerInfo : Type := mkInfo {
  clock_address : string;
  clock_port : Z;
  uri : string;
  base_time : GstClockTime;
  base_time_offset : GstClockTime;
  latency : GstClockTime;
  stopped : bool;
  paused : bool
}.

(** The fields of [struct _GstSyncClient] that the handlers read or write.
    [info = None] is the NULL pointer before the first update; [clock] keeps
    the address and port the network clock was created with. *)
Record GstSyncClient : Type := mkClient {
  info : option GstSyncServerInfo;
  clock : option (string * Z);
  synchronised : bool;
  seek_state : SeekState;
  seek_offset : GstClockTime
}.

(** [gst_sync_client_init] *)
Definition gst_sync_client_init : GstSyncClient :=
  {| info := None;
     clock := None;
     synchronised := false;
     seek_state := NEED_SEEK;
     seek_offset := 0 |}.

(** ** The outside world *)

(** Calls made on the pipeline, the bus and the clock, and the diagnostics
    raised with GST_WARNING_OBJECT / GST_ERROR_OBJECT. *)
Inductive Call : Type :=
| CallSetUri (u : string)
| CallSetLatency (l : GstClockTime)
| CallSetState (st : GstState)
| CallSetStartTime (t : GstClockTime)
| CallSetBaseTime (t : GstClockTime)
| CallSeekSimple (pos : GstClockTime)
| CallQueryPosition
| CallClockGetTime
| CallClockWaitForSync (timeout : GstClockTime)
| CallNetClientClockNew (addr : string) (port : Z)
| CallPipelineUseClock
| CallClockSetBus
| CallBusAddWatch
| CallBusEnableSyncMessageEmission
| CallSignalConnectAsyncDone
| Warning (msg : string)
| Error (msg : string).

(** What the outside world answers during one handler invocation.
    [env_query_position] is [Some p] when [gst_element_query_position]
    returns TRUE having stored [p] through its out-pointer, and [None] when
    it returns FALSE.  What a failing query does to the location it was
    handed is the library's business and not fixed by the source:
    [env_query_failed_store] is [Some v] when the failing call left [v]
    there (GStreamer's call presets the location to GST_CLOCK_TIME_NONE
    before it queries) and [None] when it stored nothing.
    [env_is_live] is the indeterminate content of the local [is_live] of
    [update_pipeline], which the source reads without having assigned it
    when the state change fails. *)
Record Env : Type := mkEnv {
  env_set_state : GstState -> GstStateChangeReturn;
  env_seek_simple : GstClockTime -> bool;
  env_query_position : option GstClockTime;
  env_query_failed_store : option GstClockTime;
  env_clock_get_time : GstClockTime;
  env_clock_wait_for_sync : bool;
  env_is_live : bool
}.

(** Bus messages, reduced to what [bus_cb] inspects: the type, whether
    the source is [self->pipeline], the old and new state of a state change,
    and of an element message's structure its name and its boolean field
    named synchronised (absent: [None]). *)
Inductive MsgSrc : Type := SrcPipeline | SrcOther.

Definition is_pipeline (src : MsgSrc) : bool :=
  match src with SrcPipeline => true | SrcOther => false end.

Record GstStructure : Type := mkStructure {
  st_name : string;
  st_synchronised : option bool
}.

Inductive GstMessage : Type :=
| GST_MESSAGE_ELEMENT (st : GstStructure)
| GST_MESSAGE_STATE_CHANGED (src : MsgSrc) (old_state new_state : GstState)
| GST_MESSAGE_ASYNC_DONE (src : MsgSrc)
| GST_MESSAGE_EOS (src : MsgSrc)
| GST_MESSAGE_OTHER.

(** ** The handler monad: state, call log, fault *)

Module HandlerMonad.

(** A handler maps the client to [None] when it dereferences the NULL
    [self->info], and otherwise to a result, the new client and the calls
    it made. *)
Definition M (A : Type) : Type :=
  GstSyncClient -> option (A * GstSyncClient * list Call).

Definition ret {A} (a : A) : M A := fun s => Some (a, s, []).

Definition bind {A B} (m : M A) (f : A -> M B) : M B :=
  fun s =>
    match m s with
    | None => None
    | Some (a, s1, l1) =>
        match f a s1 with
        | None => None
        | Some (b, s2, l2) => Some (b, s2, l1 ++ l2)
        end
    end.

Definition fault {A} : M A := fun _ => None.
Definition gets {A} (f : GstSyncClient -> A) : M A := fun s => Some (f s, s, []).
Definition modify (f : GstSyncClient -> GstSyncClient) : M unit :=
  fun s => Some (tt, f s, []).
Definition call (c : Call) : M unit := fun s => Some (tt, s, [c]).
Definition call_with {A} (c : Call) (answer : A) : M A :=
  fun s => Some (answer, s, [c]).

End HandlerMonad.
Import HandlerMonad.

Notation "x <- m ;; k" := (bind m (fun x => k))
  (at level 61, m at next level, right associativity).
Notation "m ;;; k" := (bind m (fun _ => k))
  (at level 61, right associativity).

(** Field accessors and updates. *)
Definition self_info : M GstSyncServerInfo :=
  i <- gets info ;;
  match i with
  | Some i => ret i
  | None => fault
  end.

Definition set_info (i : GstSyncServerInfo) : M unit :=
  modify (fun s => {| info := Some i; clock := clock s;
                      synchronised := synchronised s;
                      seek_state := seek_state s;
                      seek_offset := seek_offset s |}).

Definition set_clock (c : string * Z) : M unit :=
  modify (fun s => {| info := info s; clock := Some c;
                      synchronised := synchronised s;
                      seek_state := seek_state s;
                      seek_offset := seek_offset s |}).

Definition set_synchronised (b : bool) : M unit :=
  modify (fun s => {| info := info s; clock := clock s;
                      synchronised := b;
                      seek_state := seek_state s;
                      seek_offset := seek_offset s |}).

(** [g_atomic_int_set (&self->seek_state, v)] *)
Definition set_seek_state (v : SeekState) : M unit :=
  modify (fun s => {| info := info s; clock := clock s;
                      synchronised := synchronised s;
                      seek_state := v;
                      seek_offset := seek_offset s |}).

Definition set_seek_offset (v : GstClockTime) : M unit :=
  modify (fun s => {| info := info s; clock := clock s;
                      synchronised := synchronised s;
                      seek_state := seek_state s;
                      seek_offset := v |}).

(** GStreamer entry points, logging the call and returning the answer. *)
Definition gst_element_set_state (env : Env) (st : GstState)
  : M GstStateChangeReturn :=
  call_with (CallSetState st) (env_set_state env st).

Definition gst_element_seek_simple (env : Env) (pos : GstClockTime) : M bool :=
  call_with (CallSeekSimple pos) (env_seek_simple env pos).

Definition gst_clock_get_time (env : Env) : M GstClockTime :=
  call_with CallClockGetTime (env_clock_get_time env).

Definition gst_clock_wait_for_sync (env : Env) (timeout : GstClockTime) : M bool :=
  call_with (CallClockWaitForSync timeout) (env_clock_wait_for_sync env).

(** [gst_element_query_position (pipeline, GST_FORMAT_TIME, &self->seek_offset)]:
    the out-pointer is the field itself, with no temporary in between, so
    whatever the call stores lands in [self->seek_offset]: the position on
    success, and on failure what the failing call left there, if anything. *)
Definition gst_element_query_position (env : Env) : M bool :=
  r <- call_with CallQueryPosition (env_query_position env) ;;
  match r with
  | Some p => set_seek_offset p ;;; ret true
  | None =>
      match env_query_failed_store env with
      | Some v => set_seek_offset v ;;; ret false
      | None => ret false
      end
  end.

(** ** The handlers *)

(** The value handed to [gst_element_set_base_time]. *)
Definition effective_base_time (i : GstSyncServerInfo) (off : GstClockTime)
  : GstClockTime :=
  add64 (add64 (base_time i) (base_time_offset i)) off.

(** [set_base_time] *)
Definition set_base_time : M unit :=
  call (CallSetStartTime GST_CLOCK_TIME_NONE) ;;;
  i <- self_info ;;
  off <- gets seek_offset ;;
  call (CallSetBaseTime (effective_base_time i off)).

(** [update_pipeline] *)
Definition update_pipeline (env : Env) : M unit :=
  i <- self_info ;;
  call (CallSetUri (uri i)) ;;;
  call (CallSetLatency (latency i)) ;;;
  if stopped i then
    r <- gst_element_set_state env GST_STATE_NULL ;;
    match r with
    | GST_STATE_CHANGE_FAILURE => call (Warning "Error while stopping pipeline")
    | _ => ret tt
    end
  else
    r <- gst_element_set_state env GST_STATE_PAUSED ;;
    is_live <-
      match r with
      | GST_STATE_CHANGE_FAILURE =>
          call (Warning ("Could not play uri: " ++ uri i)) ;;;
          ret (env_is_live env)
      | GST_STATE_CHANGE_NO_PREROLL => ret true
      | _ => ret false
      end ;;
    set_seek_offset 0 ;;;
    set_seek_state (if is_live : bool then DONE_SEEK else NEED_SEEK) ;;;
    if negb (paused i) then
      set_base_time ;;;
      gst_element_set_state env GST_STATE_PLAYING ;;;
      ret tt
    else ret tt.

(** [gst_structure_has_name] and
    [gst_structure_get_boolean (st, "synchronised", &self->synchronised)]. *)
Definition gst_structure_has_name (st : GstStructure) (name : string) : bool :=
  String.eqb (st_name st) name.

Definition gst_structure_get_boolean (st : GstStructure) : M unit :=
  match st_synchronised st with
  | Some b => set_synchronised b
  | None => ret tt
  end.

(** [cur_pos = now - base_time - base_time_offset] of [bus_cb], in
    [GstClockTime] arithmetic. *)
Definition position_at (now : GstClockTime) (i : GstSyncServerInfo)
  : GstClockTime :=
  sub64 (sub64 now (base_time i)) (base_time_offset i).

(** [bus_cb], case GST_MESSAGE_ELEMENT, up to the call of
    [gst_clock_wait_for_sync]; the result tells whether that call is
    reached.  The client this returns is the one other contexts see while
    the wait blocks. *)
Definition bus_cb_element_until_wait (st : GstStructure) : M bool :=
  sync <- gets synchronised ;;
  if sync then ret false
  else if negb (gst_structure_has_name st "gst-netclock-statistics") then ret false
  else
    gst_structure_get_boolean st ;;;
    sync <- gets synchronised ;;
    if negb sync then ret false else ret true.

(** [bus_cb], case GST_MESSAGE_ELEMENT, from the wait on. *)
Definition bus_cb_element_from_wait (env : Env) : M unit :=
  ok <- gst_clock_wait_for_sync env (10 * GST_SECOND) ;;
  if negb ok then
    call (Error "Could not synchronise clock") ;;;
    set_synchronised false
  else
    update_pipeline env.

(** [bus_cb] *)
Definition bus_cb (env : Env) (message : GstMessage) : M bool :=
  match message with
  | GST_MESSAGE_ELEMENT st =>
      reached <- bus_cb_element_until_wait st ;;
      (if reached : bool then bus_cb_element_from_wait env else ret tt) ;;;
      ret true
  | GST_MESSAGE_STATE_CHANGED src old_state new_state =>
      ss <- gets seek_state ;;
      if negb (SeekState_eqb ss NEED_SEEK) || negb (is_pipeline src) then ret true
      else if negb (GstState_eqb old_state GST_STATE_PAUSED)
              && negb (GstState_eqb new_state GST_STATE_PLAYING) then ret true
      else
        now <- gst_clock_get_time env ;;
        set_seek_state IN_SEEK ;;;
        i <- self_info ;;
        let cur_pos := position_at now i in
        (if cur_pos >? DEFAULT_SEEK_TOLERANCE then
           ok <- gst_element_seek_simple env cur_pos ;;
           if negb ok then
             call (Warning "Could not perform seek") ;;;
             set_seek_state DONE_SEEK
           else ret tt
         else
           set_seek_state DONE_SEEK) ;;;
        ret true
  | GST_MESSAGE_ASYNC_DONE _ =>
      ss <- gets seek_state ;;
      if negb (SeekState_eqb ss IN_SEEK) then ret true
      else
        ok <- gst_element_query_position env ;;
        (if ok : bool then set_base_time else ret tt) ;;;
        set_seek_state DONE_SEEK ;;;
        ret true
  | GST_MESSAGE_EOS src =>
      (if is_pipeline src then
         gst_element_set_state env GST_STATE_NULL ;;; ret tt
       else ret tt) ;;;
      ret true
  | GST_MESSAGE_OTHER => ret true
  end.

(** [update_sync_info] *)
Definition update_sync_info (env : Env) (new_info : GstSyncServerInfo) : M unit :=
  cur <- gets info ;;
  match cur with
  | None =>
      set_info new_info ;;;
      call (CallNetClientClockNew (clock_address new_info) (clock_port new_info)) ;;;
      set_clock (clock_address new_info, clock_port new_info) ;;;
      call CallPipelineUseClock ;;;
      call CallClockSetBus ;;;
      call CallBusAddWatch ;;;
      call CallBusEnableSyncMessageEmission ;;;
      call CallSignalConnectAsyncDone
  | Some old_info =>
      set_info new_info ;;;
      if negb (Bool.eqb (stopped old_info) (stopped new_info))
         || negb (String.eqb (uri old_info) (uri new_info)) then
        gst_element_set_state env GST_STATE_NULL ;;;
        update_pipeline env
      else if negb (Bool.eqb (paused old_info) (paused new_info)) then
        (if negb (paused new_info) then set_base_time else ret tt) ;;;
        gst_element_set_state env
          (if paused new_info then GST_STATE_PAUSED else GST_STATE_PLAYING) ;;;
        ret tt
      else if negb (base_time old_info =? base_time new_info) then
        gst_element_set_state env GST_STATE_NULL ;;;
        update_pipeline env
      else ret tt
  end.

(** ** Event delivery *)

(** A snapshot notification ([sync_info_notify], which hands the snapshot to
    [update_sync_info]) or a bus message. *)
Inductive Event : Type :=
| EvSyncInfo (i : GstSyncServerInfo)
| EvBus (m : GstMessage).

(** An [EvBus] event is one invocation of [bus_cb] on a message.  [bus_cb]
    is attached to the bus by the first [update_sync_info]
    ([gst_bus_add_watch], [g_signal_connect]), so no invocation takes place
    while [self->info] is still NULL. *)
Definition handle (ev : Event) (env : Env) : M unit :=
  match ev with
  | EvSyncInfo i => update_sync_info env i
  | EvBus m =>
      cur <- gets info ;;
      match cur with
      | None => ret tt
      | Some _ => bus_cb env m ;;; ret tt
      end
  end.

Fixpoint run (evs : list (Event * Env)) : M unit :=
  match evs with
  | [] => ret tt
  | (ev, env) :: rest => handle ev env ;;; run rest
  end.

(** States the client can be in between two handler invocations. *)
Definition reachable (s : GstSyncClient) : Prop :=
  exists evs calls, run evs gst_sync_client_init = Some (tt, s, calls).


(** ** Vocabulary of the statements *)

(** The clock's statistics message carrying the given synchronised flag. *)
Definition statistics (b : bool) : GstMessage :=
  GST_MESSAGE_ELEMENT
    {| st_name := "gst-netclock-statistics"; st_synchronised := Some b |}.

(** The pipeline's own report of the step from paused to playing. *)
Definition play_transition : GstMessage :=
  GST_MESSAGE_STATE_CHANGED SrcPipeline GST_STATE_PAUSED GST_STATE_PLAYING.

Definition is_state_command (c : Call) : bool :=
  match c with CallSetState _ => true | _ => false end.

Definition is_play_command (c : Call) : bool :=
  match c with
  | CallSetState GST_STATE_PAUSED | CallSetState GST_STATE_PLAYING => true
  | _ => false
  end.

Definition is_configuration (c : Call) : bool :=
  match c with CallSetUri _ | CallSetLatency _ => true | _ => false end.

Definition is_base_time (c : Call) : bool :=
  match c with CallSetBaseTime _ => true | _ => false end.

Definition is_seek (c : Call) : bool :=
  match c with CallSeekSimple _ => true | _ => false end.

Definition is_pipeline_eos (m : GstMessage) : bool :=
  match m with GST_MESSAGE_EOS SrcPipeline => true | _ => false end.

Definition bus_events (ms : list (GstMessage * Env)) : list (Event * Env) :=
  map (fun '(m, env) => (EvBus m, env)) ms.

(** The seek phase a non-stopped [update_pipeline] leaves behind, by the
    answer to the paused command. *)
Definition phase_after_start (env : Env) (r : GstStateChangeReturn) : SeekState :=
  match r with
  | GST_STATE_CHANGE_FAILURE => if env_is_live env then DONE_SEEK else NEED_SEEK
  | GST_STATE_CHANGE_NO_PREROLL => DONE_SEEK
  | _ => NEED_SEEK
  end.

(** The tail of the calls of a non-stopped [update_pipeline]: nothing when
    the snapshot is paused, else the time base and the play command. *)
Definition play_calls (i : GstSyncServerInfo) : list Call :=
  if paused i then []
  else [CallSetStartTime GST_CLOCK_TIME_NONE;
        CallSetBaseTime (effective_base_time i 0);
        CallSetState GST_STATE_PLAYING].

(** The state-change case of [bus_cb] goes past its two guards exactly when
    the seek phase is NEED_SEEK, the message comes from the pipeline, and the
    old state is paused or the new state is playing. *)
Definition state_change_acts (s : GstSyncClient) (src : MsgSrc)
    (old_state new_state : GstState) : bool :=
  SeekState_eqb (seek_state s) NEED_SEEK && is_pipeline src
  && (GstState_eqb old_state GST_STATE_PAUSED
      || GstState_eqb new_state GST_STATE_PLAYING).

(** What the state-change case of [bus_cb] does once past its guards, by the
    position it computed: the seek phase it leaves and the calls that follow
    the clock read. *)
Definition phase_after_play (env : Env) (pos : GstClockTime) : SeekState :=
  if pos >? DEFAULT_SEEK_TOLERANCE then
    if env_seek_simple env pos then IN_SEEK else DONE_SEEK
  else DONE_SEEK.

Definition seek_calls (env : Env) (pos : GstClockTime) : list Call :=
  if pos >? DEFAULT_SEEK_TOLERANCE then
    CallSeekSimple pos ::
      (if env_seek_simple env pos then [] else [Warning "Could not perform seek"])
  else [].

(** The clock reports synchronisation within the bounded wait: a statistics
    message with the synchronised flag set, followed by a successful
    [gst_clock_wait_for_sync]. *)
Definition sync_confirmed (m : GstMessage) (env : Env) : bool :=
  match m with
  | GST_MESSAGE_ELEMENT st =>
      gst_structure_has_name st "gst-netclock-statistics"
      && match st_synchronised st with Some b => b | None => false end
      && env_clock_wait_for_sync env
  | _ => false
  end.

(** The content of [self->seek_offset] after the position query of the
    seek-completion case, [prior] being its content before. *)
Definition offset_after_query (env : Env) (prior : GstClockTime)
  : GstClockTime :=
  match env_query_position env with
  | Some p => p
  | None =>
      match env_query_failed_store env with
      | Some v => v
      | None => prior
      end
  end.

(** Concrete snapshots, answers and clients used to exercise the handlers. *)
Module Samples.

Definition snapshot : GstSyncServerInfo :=
  {| clock_address := "192.168.0.1"; clock_port := 3695;
     uri := "file:///a.ogg";
     base_time := 1000 * GST_MSECOND; base_time_offset := 0;
     latency := 300 * GST_MSECOND; stopped := false; paused := false |}.

Definition with_offset (off : GstClockTime) (i : GstSyncServerInfo)
  : GstSyncServerInfo :=
  {| clock_address := clock_address i; clock_port := clock_port i;
     uri := uri i; base_time := base_time i; base_time_offset := off;
     latency := latency i; stopped := stopped i; paused := paused i |}.

Definition with_flags (st pa : bool) (i : GstSyncServerInfo)
  : GstSyncServerInfo :=
  {| clock_address := clock_address i; clock_port := clock_port i;
     uri := uri i; base_time := base_time i;
     base_time_offset := base_time_offset i;
     latency := latency i; stopped := st; paused := pa |}.

Definition with_base_time (bt : GstClockTime) (i : GstSyncServerInfo)
  : GstSyncServerInfo :=
  {| clock_address := clock_address i; clock_port := clock_port i;
     uri := uri i; base_time := bt;
     base_time_offset := base_time_offset i;
     latency := latency i; stopped := stopped i; paused := paused i |}.

(** A pipeline that prerolls, accepts seeks and reports position [pos]
    (a failing query leaving GST_CLOCK_TIME_NONE behind, as GStreamer's
    does); the clock reads [now] and the bounded wait answers [sync]. *)
Definition answers (now : GstClockTime) (pos : option GstClockTime)
    (sync : bool) : Env :=
  {| env_set_state := fun _ => GST_STATE_CHANGE_ASYNC;
     env_seek_simple := fun _ => true;
     env_query_position := pos;
     env_query_failed_store := Some GST_CLOCK_TIME_NONE;
     env_clock_get_time := now;
     env_clock_wait_for_sync := sync;
     env_is_live := false |}.

(** A pipeline that refuses every state change. *)
Definition refusing (garbage : bool) : Env :=
  {| env_set_state := fun _ => GST_STATE_CHANGE_FAILURE;
     env_seek_simple := fun _ => true;
     env_query_position := None;
     env_query_failed_store := Some GST_CLOCK_TIME_NONE;
     env_clock_get_time := 0;
     env_clock_wait_for_sync := true;
     env_is_live := garbage |}.


Definition client (i : GstSyncServerInfo) (sync : bool) (ph : SeekState)
    (off : GstClockTime) : GstSyncClient :=
  {| info := Some i; clock := Some (clock_address i, clock_port i);
     synchronised := sync; seek_state := ph; seek_offset := off |}.

End Samples.

(** ** Vocabulary of the further properties *)

Definition is_clock_new (c : Call) : bool :=
  match c with CallNetClientClockNew _ _ => true | _ => false end.

Definition is_clock_read (c : Call) : bool :=
  match c with CallClockGetTime => true | _ => false end.

Definition is_playing_command (c : Call) : bool :=
  match c with CallSetState GST_STATE_PLAYING => true | _ => false end.

Definition count_calls (p : Call -> bool) (calls : list Call) : nat :=
  List.length (filter p calls).

(** The order in which the seek phase advances. *)
Definition seek_rank (ph : SeekState) : nat :=
  match ph with NEED_SEEK => 0 | IN_SEEK => 1 | DONE_SEEK => 2 end.

(** How many seeks, and how many base-time corrections, a play cycle in
    the given phase can still make. *)
Definition seeks_left (ph : SeekState) : nat :=
  match ph with NEED_SEEK => 1 | _ => 0 end.

Definition base_times_left (ph : SeekState) : nat :=
  match ph with DONE_SEEK => 0 | _ => 1 end.

(** The two message types the seek sub-state-machine listens to. *)
Definition is_seek_message (m : GstMessage) : bool :=
  match m with
  | GST_MESSAGE_STATE_CHANGED _ _ _ | GST_MESSAGE_ASYNC_DONE _ => true
  | _ => false
  end.

Definition is_element (m : GstMessage) : bool :=
  match m with GST_MESSAGE_ELEMENT _ => true | _ => false end.

(** The four getters [update_sync_info] compares between the old and the
    new snapshot. *)
Definition same_diffed_fields (old_info new_info : GstSyncServerInfo) : bool :=
  Bool.eqb (stopped old_info) (stopped new_info)
  && String.eqb (uri old_info) (uri new_info)
  && Bool.eqb (paused old_info) (paused new_info)
  && (base_time old_info =? base_time new_info).

(** The snapshot last handed over by a sequence of events, [cur] when there
    was none. *)
Fixpoint last_snapshot (evs : list (Event * Env))
    (cur : option GstSyncServerInfo) : option GstSyncServerInfo :=
  match evs with
  | [] => cur
  | (EvSyncInfo i, _) :: rest => last_snapshot rest (Some i)
  | (EvBus _, _) :: rest => last_snapshot rest cur
  end.

(** Every command to the playing state comes right after a call that set
    the base time; [prev] tells whether the call before the list did. *)
Fixpoint play_follows_base_time (prev : bool) (calls : list Call) : bool :=
  match calls with
  | [] => true
  | c :: rest =>
      (if is_playing_command c then prev else true)
      && play_follows_base_time (is_base_time c) rest
  end.

(** The client with another snapshot, flag or seek fields. *)
Definition with_info (i : GstSyncServerInfo) (s : GstSyncClient) : GstSyncClient :=
  {| info := Some i; clock := clock s; synchronised := synchronised s;
     seek_state := seek_state s; seek_offset := seek_offset s |}.

Definition with_seek (ph : SeekState) (off : GstClockTime) (s : GstSyncClient)
  : GstSyncClient :=
  {| info := info s; clock := clock s; synchronised := synchronised s;
     seek_state := ph; seek_offset := off |}.

Definition with_synchronised (b : bool) (s : GstSyncClient) : GstSyncClient :=
  {| info := info s; clock := clock s; synchronised := b;
     seek_state := seek_state s; seek_offset := seek_offset s |}.

(** The warnings of [update_pipeline], by the answer to the state command. *)
Definition stop_warning (r : GstStateChangeReturn) : list Call :=
  match r with
  | GST_STATE_CHANGE_FAILURE => [Warning "Error while stopping pipeline"]
  | _ => []
  end.

Definition play_warning (r : GstStateChangeReturn) (i : GstSyncServerInfo)
  : list Call :=
  match r with
  | GST_STATE_CHANGE_FAILURE => [Warning ("Could not play uri: " ++ uri i)]
  | _ => []
  end.

(** ** Starting and stopping the client *)

(** The control half of [struct _GstSyncClient]: [control_addr] (NULL:
    [None]), [control_port] and the control client object.  An object is
    either the built-in TCP control client, which the source documents as
    an implementation of the GstSyncControlClient interface, or one handed
    in through the control-client property, which may or may not implement
    that interface. *)
Inductive ControlObject : Type :=
| TcpControlClient
| CustomObject (id : Z) (implements_control_client : bool).

Definition GST_IS_SYNC_CONTROL_CLIENT (o : option ControlObject) : bool :=
  match o with
  | Some TcpControlClient => true
  | Some (CustomObject _ b) => b
  | None => false
  end.

Record ControlSettings : Type := mkControl {
  control_addr : option string;
  control_port : Z;
  client : option ControlObject
}.

(** [#define DEFAULT_PORT 0] *)
Definition DEFAULT_PORT : Z := 0.

(** The control fields as [gst_sync_client_init] leaves them. *)
Definition control_init : ControlSettings :=
  {| control_addr := None; control_port := DEFAULT_PORT; client := None |}.

(** Calls made on the control client. *)
Inductive ControlCall : Type :=
| CtlNewTcpClient
| CtlSetAddress (o : ControlObject) (addr : string)
| CtlSetPort (o : ControlObject) (port : Z)
| CtlConnectSyncInfoNotify (o : ControlObject)
| CtlStart (o : ControlObject)
| CtlStop (o : option ControlObject).

(** [gst_sync_client_start]; [started] is the answer of
    [gst_sync_control_client_start]. *)
Definition gst_sync_client_start (started : bool) (c : ControlSettings)
  : bool * ControlSettings * list ControlCall :=
  let '(c1, made) :=
    match client c with
    | None =>
        ({| control_addr := control_addr c; control_port := control_port c;
            client := Some TcpControlClient |}, [CtlNewTcpClient])
    | Some _ => (c, [])
    end in
  match client c1 with
  | Some o =>
      if negb (GST_IS_SYNC_CONTROL_CLIENT (client c1)) then (false, c1, made)
      else
        let configured :=
          match control_addr c1 with
          | Some addr => [CtlSetAddress o addr; CtlSetPort o (control_port c1)]
          | None => []
          end in
        (started, c1,
         made ++ configured ++ [CtlConnectSyncInfoNotify o; CtlStart o])
  | None => (false, c1, made)
  end.

Definition is_new_tcp_client (c : ControlCall) : bool :=
  match c with CtlNewTcpClient => true | _ => false end.

Definition is_connect_notify (c : ControlCall) : bool :=
  match c with CtlConnectSyncInfoNotify _ => true | _ => false end.

(** The calls that hand the configured endpoint to the control client. *)
Definition endpoint_calls (o : ControlObject) (c : ControlSettings)
  : list ControlCall :=
  match control_addr c with
  | Some addr => [CtlSetAddress o addr; CtlSetPort o (control_port c)]
  | None => []
  end.

(** [gst_sync_client_stop] *)
Definition gst_sync_client_stop (c : ControlSettings)
  : ControlSettings * list ControlCall :=
  (c, [CtlStop (client c)]).

(** * Verification *)

#[local] Arguments wrap64 : simpl never.
#[local] Arguments add64 : simpl never.
#[local] Arguments sub64 : simpl never.
#[local] Arguments position_at : simpl never.
#[local] Arguments effective_base_time : simpl never.
#[local] Arguments String.append : simpl never.
#[local] Arguments String.eqb : simpl never.
#[local] Arguments Z.gtb : simpl never.
#[local] Arguments Z.eqb : simpl never.
#[local] Arguments Z.mul : simpl never.

(** ** Arithmetic of clock times *)

Section ClockArith.

Lemma wrap64_range (z : Z) : in_u64 (wrap64 z).
Proof. unfold in_u64, wrap64. apply Z.mod_pos_bound. lia. Qed.



Lemma sub64_sub64 (a b c : Z) : sub64 (sub64 a b) c = wrap64 (a - b - c).
Proof. unfold sub64, wrap64. apply Zminus_mod_idemp_l. Qed.

Lemma DEFAULT_SEEK_TOLERANCE_value : DEFAULT_SEEK_TOLERANCE = 200000000.
Proof. reflexivity. Qed.

(** A clock that is behind the time base by [d] ticks yields the position
    [2^64 - d]. *)
Lemma position_behind (now : Z) (i : GstSyncServerInfo) :
  0 < base_time i + base_time_offset i - now <= 2 ^ 64 ->
  position_at now i = 2 ^ 64 - (base_time i + base_time_offset i - now).
Proof.
  intros H. unfold position_at. rewrite sub64_sub64. unfold wrap64.
  symmetry. apply (Z.mod_unique _ _ (-1)); lia.
Qed.


End ClockArith.

(** ** Proof steps shared by the handler lemmas *)

Ltac unfold_monad :=
  unfold self_info, set_info, set_clock, set_synchronised, set_seek_state,
    set_seek_offset, gst_element_set_state, gst_element_seek_simple,
    gst_clock_get_time, gst_clock_wait_for_sync, gst_element_query_position,
    gst_structure_get_boolean, gst_structure_has_name,
    bind, ret, fault, gets, modify, call, call_with in *.

Ltac unfold_handlers :=
  unfold handle, update_sync_info, bus_cb, bus_cb_element_until_wait,
    bus_cb_element_from_wait, update_pipeline, set_base_time in *;
  unfold_monad.

Ltac case_scrutinee :=
  match goal with
  | |- context [match ?x with _ => _ end] =>
      lazymatch x with
      | context [match _ with _ => _ end] => fail
      | _ => destruct x eqn:?
      end
  end.

Ltac handler_cases := cbn; repeat (case_scrutinee; cbn).

(** Opens the client record so that its fields compute. *)
Ltac open_client s H :=
  destruct s as [? ? ? ? ?]; cbn in H; subst.

(** ** The handlers one by one *)

Section Handlers.

Variable env : Env.

Lemma set_base_time_eq (s : GstSyncClient) (i : GstSyncServerInfo) :
  info s = Some i ->
  set_base_time s =
    Some (tt, s, [CallSetStartTime GST_CLOCK_TIME_NONE;
                  CallSetBaseTime (effective_base_time i (seek_offset s))]).
Proof.
  intros H. open_client s H. unfold_handlers. reflexivity.
Qed.

Lemma update_pipeline_stopped_eq (s : GstSyncClient) (i : GstSyncServerInfo) :
  info s = Some i -> stopped i = true ->
  update_pipeline env s =
    Some (tt, s,
          [CallSetUri (uri i); CallSetLatency (latency i);
           CallSetState GST_STATE_NULL]
          ++ match env_set_state env GST_STATE_NULL with
             | GST_STATE_CHANGE_FAILURE => [Warning "Error while stopping pipeline"]
             | _ => []
             end).
Proof.
  intros H Hs. open_client s H. unfold_handlers. cbn. rewrite Hs. cbn.
  destruct (env_set_state env GST_STATE_NULL); reflexivity.
Qed.

Lemma update_pipeline_started_eq (s : GstSyncClient) (i : GstSyncServerInfo) :
  info s = Some i -> stopped i = false ->
  update_pipeline env s =
    Some (tt,
          {| info := info s; clock := clock s; synchronised := synchronised s;
             seek_state := phase_after_start env (env_set_state env GST_STATE_PAUSED);
             seek_offset := 0 |},
          [CallSetUri (uri i); CallSetLatency (latency i);
           CallSetState GST_STATE_PAUSED]
          ++ match env_set_state env GST_STATE_PAUSED with
             | GST_STATE_CHANGE_FAILURE => [Warning ("Could not play uri: " ++ uri i)]
             | _ => []
             end
          ++ play_calls i).
Proof.
  intros H Hs. open_client s H. unfold_handlers.
  unfold play_calls, phase_after_start. cbn. rewrite Hs. cbn.
  destruct (env_set_state env GST_STATE_PAUSED), (paused i), (env_is_live env);
    cbn; reflexivity.
Qed.

(** [update_pipeline] never faults once a snapshot is stored, and touches
    only the seek fields. *)
Lemma update_pipeline_total (s : GstSyncClient) (i : GstSyncServerInfo) :
  info s = Some i ->
  exists s' calls,
    update_pipeline env s = Some (tt, s', calls) /\
    info s' = Some i /\ clock s' = clock s /\
    synchronised s' = synchronised s /\
    (seek_state s' = NEED_SEEK -> seek_offset s = 0 -> seek_offset s' = 0).
Proof.
  intros H. destruct (stopped i) eqn:Hs.
  - rewrite (update_pipeline_stopped_eq s i H Hs). eauto 10.
  - rewrite (update_pipeline_started_eq s i H Hs). do 2 eexists.
    split; [reflexivity|]. cbn. auto.
Qed.

Lemma bus_cb_state_changed_ignored (s : GstSyncClient) (src : MsgSrc)
    (old_state new_state : GstState) :
  state_change_acts s src old_state new_state = false ->
  bus_cb env (GST_MESSAGE_STATE_CHANGED src old_state new_state) s =
    Some (true, s, []).
Proof.
  unfold state_change_acts. intros H. destruct s as [? ? ? ss ?]. cbn in H.
  unfold_handlers. cbn.
  destruct ss, src, old_state, new_state; cbn in *;
    reflexivity || discriminate.
Qed.

Lemma bus_cb_state_changed_acts (s : GstSyncClient) (i : GstSyncServerInfo)
    (src : MsgSrc) (old_state new_state : GstState) :
  info s = Some i ->
  state_change_acts s src old_state new_state = true ->
  bus_cb env (GST_MESSAGE_STATE_CHANGED src old_state new_state) s =
    Some (true,
          {| info := info s; clock := clock s; synchronised := synchronised s;
             seek_state :=
               phase_after_play env (position_at (env_clock_get_time env) i);
             seek_offset := seek_offset s |},
          CallClockGetTime
            :: seek_calls env (position_at (env_clock_get_time env) i)).
Proof.
  unfold state_change_acts, phase_after_play, seek_calls. intros H Ha.
  destruct s as [? ? ? ss ?]. cbn in H, Ha. subst.
  unfold_handlers. cbn.
  destruct ss, src; try discriminate Ha;
    destruct old_state, new_state; try discriminate Ha; cbn;
    destruct (position_at (env_clock_get_time env) i >? DEFAULT_SEEK_TOLERANCE);
    cbn; try reflexivity;
    destruct (env_seek_simple env (position_at (env_clock_get_time env) i));
    reflexivity.
Qed.

Lemma bus_cb_async_done_ignored (s : GstSyncClient) (src : MsgSrc) :
  seek_state s <> IN_SEEK ->
  bus_cb env (GST_MESSAGE_ASYNC_DONE src) s = Some (true, s, []).
Proof.
  intros H. destruct s as [? ? ? ss ?]. cbn in H. unfold_handlers. cbn.
  destruct ss; try reflexivity. congruence.
Qed.

Lemma bus_cb_async_done_eq (s : GstSyncClient) (i : GstSyncServerInfo)
    (src : MsgSrc) :
  info s = Some i -> seek_state s = IN_SEEK ->
  bus_cb env (GST_MESSAGE_ASYNC_DONE src) s =
    Some (true,
          {| info := info s; clock := clock s; synchronised := synchronised s;
             seek_state := DONE_SEEK;
             seek_offset := offset_after_query env (seek_offset s) |},
          CallQueryPosition ::
            match env_query_position env with
            | Some p => [CallSetStartTime GST_CLOCK_TIME_NONE;
                         CallSetBaseTime (effective_base_time i p)]
            | None => []
            end).
Proof.
  intros H Hs. destruct s as [? ? ? ss ?]. cbn in H, Hs. subst.
  unfold offset_after_query. unfold_handlers. cbn.
  destruct (env_query_position env); [reflexivity|].
  destruct (env_query_failed_store env); reflexivity.
Qed.

(** No handler faults: [bus_cb] runs only once a snapshot is stored, and
    [update_sync_info] stores one. *)
Lemma handle_total (ev : Event) (s : GstSyncClient) :
  exists s' calls, handle ev env s = Some (tt, s', calls).
Proof.
  destruct s as [[i|] ? ? ? ?]; destruct ev as [ni|[st|src o n|src|src|]];
    unfold_handlers; handler_cases; eauto.
Qed.

(** Once set at the end of a handler, the synchronised flag stays set. *)
Lemma handle_keeps_synchronised (ev : Event) (s s' : GstSyncClient)
    (calls : list Call) :
  handle ev env s = Some (tt, s', calls) ->
  synchronised s = true -> synchronised s' = true.
Proof.
  destruct s as [[i|] ? sy ? ?]; destruct ev as [ni|[st|src o n|src|src|]];
    cbn [synchronised]; intros H Hsy; subst sy; revert H;
    unfold_handlers; handler_cases; intros H;
    try discriminate; inversion H; subst; reflexivity.
Qed.

(** Whenever the seek phase is NEED_SEEK the seek offset is zero. *)
Lemma handle_keeps_need_seek_zero (ev : Event) (s s' : GstSyncClient)
    (calls : list Call) :
  handle ev env s = Some (tt, s', calls) ->
  (seek_state s = NEED_SEEK -> seek_offset s = 0) ->
  seek_state s' = NEED_SEEK -> seek_offset s' = 0.
Proof.
  destruct s as [[i|] ? ? ss so]; destruct ev as [ni|[st|src o n|src|src|]];
    cbn [seek_state seek_offset]; intros H; revert H;
    unfold_handlers; handler_cases; intros H;
    try discriminate; inversion H; subst; cbn; auto; try discriminate.
Qed.

End Handlers.

(** ** Sequences of events *)

Section Runs.

Lemma run_step_inv (ev : Event) (env : Env) (rest : list (Event * Env))
    (s s' : GstSyncClient) (calls : list Call) :
  run ((ev, env) :: rest) s = Some (tt, s', calls) ->
  exists s1 c1 c2,
    handle ev env s = Some (tt, s1, c1) /\
    run rest s1 = Some (tt, s', c2) /\ calls = c1 ++ c2.
Proof.
  cbn [run]. unfold bind.
  destruct (handle ev env s) as [[[[] s1] c1]|] eqn:H1; [|discriminate].
  destruct (run rest s1) as [[[[] s2] c2]|] eqn:H2; [|discriminate].
  intros H. inversion H; subst. exists s1, c1, c2. auto.
Qed.

Lemma run_step (ev : Event) (env : Env) (rest : list (Event * Env))
    (s s1 s' : GstSyncClient) (c1 c2 : list Call) :
  handle ev env s = Some (tt, s1, c1) ->
  run rest s1 = Some (tt, s', c2) ->
  run ((ev, env) :: rest) s = Some (tt, s', c1 ++ c2).
Proof.
  intros H1 H2. cbn [run]. unfold bind. rewrite H1, H2. reflexivity.
Qed.

Lemma run_total (evs : list (Event * Env)) :
  forall s, exists s' calls, run evs s = Some (tt, s', calls).
Proof.
  induction evs as [|[ev env] rest IH]; intros s.
  - exists s, []. reflexivity.
  - destruct (handle_total env ev s) as (s1 & c1 & H1).
    destruct (IH s1) as (s' & c2 & H2).
    exists s', (c1 ++ c2). now apply run_step with s1.
Qed.

Lemma run_invariant (P : GstSyncClient -> Prop) :
  (forall ev env s s' calls,
      handle ev env s = Some (tt, s', calls) -> P s -> P s') ->
  forall evs s s' calls, run evs s = Some (tt, s', calls) -> P s -> P s'.
Proof.
  intros Hstep evs. induction evs as [|[ev env] rest IH]; intros s s' calls H HP.
  - cbn in H. inversion H; subst. exact HP.
  - apply run_step_inv in H. destruct H as (s1 & c1 & c2 & H1 & H2 & _).
    eapply IH; [exact H2|]. eapply Hstep; eauto.
Qed.

Lemma reachable_need_seek_zero (s : GstSyncClient) :
  reachable s -> seek_state s = NEED_SEEK -> seek_offset s = 0.
Proof.
  intros (evs & calls & H).
  apply (run_invariant
           (fun s => seek_state s = NEED_SEEK -> seek_offset s = 0))
    with (evs := evs) (s := gst_sync_client_init) (calls := calls).
  - intros ev env s0 s1 c Hh HP. eapply handle_keeps_need_seek_zero; eauto.
  - exact H.
  - reflexivity.
Qed.

(** A bus message that does not confirm synchronisation leaves the client
    unsynchronised and starts nothing. *)
Lemma handle_bus_unconfirmed (m : GstMessage) (env : Env)
    (s s' : GstSyncClient) (calls : list Call) :
  sync_confirmed m env = false ->
  handle (EvBus m) env s = Some (tt, s', calls) ->
  synchronised s = false ->
  synchronised s' = false /\
  existsb is_play_command calls = false /\
  existsb is_configuration calls = false /\
  (is_pipeline_eos m = false -> existsb is_state_command calls = false).
Proof.
  destruct s as [[i|] ? sy ? ?]; destruct m as [[nm [[|]|]]|src o n|src|[|]|];
    cbn [synchronised sync_confirmed st_name st_synchronised];
    intros Hc H Hsy; subst sy; revert H Hc;
    unfold_handlers; handler_cases; intros H;
    try discriminate; inversion H; subst; cbn; intros Hc;
    repeat split; auto; try discriminate;
    destruct (String.eqb nm "gst-netclock-statistics"),
      (env_clock_wait_for_sync env); cbn in *; discriminate.
Qed.

(** The first update, from any client without a snapshot. *)
Lemma first_update_eq (env : Env)
    (s : GstSyncClient) (i : GstSyncServerInfo) :
  info s = None ->
  exists s',
    update_sync_info env i s =
      Some (tt, s',
            [CallNetClientClockNew (clock_address i) (clock_port i);
             CallPipelineUseClock; CallClockSetBus; CallBusAddWatch;
             CallBusEnableSyncMessageEmission; CallSignalConnectAsyncDone]) /\
    synchronised s' = synchronised s.
Proof.
  intros H. destruct s as [? ? sy ? ?]. cbn in H. subst.
  eexists. split; reflexivity.
Qed.

End Runs.

(** * The claims *)

(** ** The start/refresh procedure *)

(** C10.  Run on a snapshot whose stopped flag is set, [update_pipeline]
    applies the locator and the latency, commands the NULL state and
    returns: the client, and with it [seek_state] and [seek_offset], is
    handed back untouched.  Run on a snapshot that is not stopped, it resets
    [seek_offset] to zero and sets [seek_state] afresh. *)
Theorem update_pipeline_stopped_keeps_seek_fields
    (env : Env) (s : GstSyncClient) (i : GstSyncServerInfo) :
  info s = Some i ->
  exists s' calls,
    update_pipeline env s = Some (tt, s', calls) /\
    if stopped i then
      s' = s /\
      seek_state s' = seek_state s /\ seek_offset s' = seek_offset s /\
      filter is_state_command calls = [CallSetState GST_STATE_NULL]
    else
      seek_offset s' = 0 /\
      seek_state s' = phase_after_start env (env_set_state env GST_STATE_PAUSED).
Proof.
  intros H. destruct (stopped i) eqn:Hs.
  - rewrite (update_pipeline_stopped_eq env s i H Hs).
    do 2 eexists. split; [reflexivity|]. repeat split.
    destruct (env_set_state env GST_STATE_NULL); reflexivity.
  - rewrite (update_pipeline_started_eq env s i H Hs).
    do 2 eexists. split; [reflexivity|]. split; reflexivity.
Qed.

(** A stop arriving after a completed seek of 310 ms: the offset and the
    phase of the finished play cycle survive it. *)
Lemma update_pipeline_stopped_keeps_seek_fields_witness :
  exists s' calls,
    update_pipeline (Samples.answers 0 None true)
      (Samples.client (Samples.with_flags true false Samples.snapshot)
         true DONE_SEEK (310 * GST_MSECOND)) = Some (tt, s', calls) /\
    seek_state s' = DONE_SEEK /\ seek_offset s' = 310 * GST_MSECOND.
Proof.
  destruct (update_pipeline_stopped_keeps_seek_fields
              (Samples.answers 0 None true)
              (Samples.client (Samples.with_flags true false Samples.snapshot)
                 true DONE_SEEK (310 * GST_MSECOND))
              (Samples.with_flags true false Samples.snapshot) eq_refl)
    as (s' & calls & Hrun & Hkeep).
  cbn in Hkeep. destruct Hkeep as (_ & Hph & Hoff & _).
  exists s', calls. split; [exact Hrun|]. split; assumption.
Defined.

(** C2 (the code departs from the claim).  When the pipeline answers the
    paused command with GST_STATE_CHANGE_FAILURE, [update_pipeline] raises
    its warning and then carries on as after a successful command: it resets
    [seek_offset], sets [seek_state] from the never-assigned [is_live], and,
    the snapshot not being paused, applies the time base and commands the
    playing state. *)
Theorem update_pipeline_failure_carries_on
    (env : Env) (s : GstSyncClient) (i : GstSyncServerInfo) :
  info s = Some i -> stopped i = false -> paused i = false ->
  env_set_state env GST_STATE_PAUSED = GST_STATE_CHANGE_FAILURE ->
  update_pipeline env s =
    Some (tt,
          {| info := info s; clock := clock s; synchronised := synchronised s;
             seek_state := if env_is_live env then DONE_SEEK else NEED_SEEK;
             seek_offset := 0 |},
          [CallSetUri (uri i); CallSetLatency (latency i);
           CallSetState GST_STATE_PAUSED;
           Warning ("Could not play uri: " ++ uri i);
           CallSetStartTime GST_CLOCK_TIME_NONE;
           CallSetBaseTime (effective_base_time i 0);
           CallSetState GST_STATE_PLAYING]).
Proof.
  intros H Hs Hp Hf. rewrite (update_pipeline_started_eq env s i H Hs).
  unfold play_calls. rewrite Hf, Hp. reflexivity.
Qed.

Lemma update_pipeline_failure_carries_on_witness :
  update_pipeline (Samples.refusing false)
    (Samples.client Samples.snapshot true DONE_SEEK (310 * GST_MSECOND)) =
    Some (tt, Samples.client Samples.snapshot true NEED_SEEK 0,
          [CallSetUri "file:///a.ogg"; CallSetLatency (300 * GST_MSECOND);
           CallSetState GST_STATE_PAUSED;
           Warning "Could not play uri: file:///a.ogg";
           CallSetStartTime GST_CLOCK_TIME_NONE;
           CallSetBaseTime (1000 * GST_MSECOND);
           CallSetState GST_STATE_PLAYING]).
Proof.
  exact (update_pipeline_failure_carries_on (Samples.refusing false)
           (Samples.client Samples.snapshot true DONE_SEEK (310 * GST_MSECOND))
           Samples.snapshot eq_refl eq_refl eq_refl eq_refl).
Defined.

(** ** Snapshot updates *)

(** C3, as the code has it.  A later update that differs from the stored
    snapshot in [base_time_offset] while stopped, uri, paused and base_time
    are equal only replaces the stored snapshot: no call is made, so the
    effective base time is not reapplied by that update.  The new offset is
    the one the next [set_base_time] uses. *)
Theorem update_sync_info_offset_only_stores
    (env : Env) (s : GstSyncClient) (old_info new_info : GstSyncServerInfo) :
  info s = Some old_info ->
  stopped old_info = stopped new_info ->
  uri old_info = uri new_info ->
  paused old_info = paused new_info ->
  base_time old_info = base_time new_info ->
  base_time_offset old_info <> base_time_offset new_info ->
  exists s',
    update_sync_info env new_info s = Some (tt, s', []) /\
    info s' = Some new_info /\
    synchronised s' = synchronised s /\
    seek_state s' = seek_state s /\ seek_offset s' = seek_offset s /\
    set_base_time s' =
      Some (tt, s', [CallSetStartTime GST_CLOCK_TIME_NONE;
                     CallSetBaseTime (effective_base_time new_info (seek_offset s))]).
Proof.
  intros H Hst Hu Hp Hb _. open_client s H.
  eexists. split.
  - unfold_handlers. cbn. rewrite Hst, Hu, Hp, Hb.
    rewrite !Bool.eqb_reflx, String.eqb_refl, Z.eqb_refl. cbn. reflexivity.
  - cbn. repeat split.
Qed.

Lemma update_sync_info_offset_only_stores_witness :
  exists s',
    update_sync_info (Samples.answers 0 None true)
      (Samples.with_offset (5000 * GST_MSECOND) Samples.snapshot)
      (Samples.client Samples.snapshot true DONE_SEEK (310 * GST_MSECOND)) =
      Some (tt, s', []) /\
    info s' = Some (Samples.with_offset (5000 * GST_MSECOND) Samples.snapshot).
Proof.
  destruct (update_sync_info_offset_only_stores
              (Samples.answers 0 None true)
              (Samples.client Samples.snapshot true DONE_SEEK (310 * GST_MSECOND))
              Samples.snapshot
              (Samples.with_offset (5000 * GST_MSECOND) Samples.snapshot)
              eq_refl eq_refl eq_refl eq_refl eq_refl)
    as (s' & Hrun & Hinfo & _).
  - cbn. discriminate.
  - exists s'. split; assumption.
Defined.

(** C3 as stated fails: the playing client below holds offset 0 and is
    handed the same snapshot with offset 5 s; the update makes no call at
    all, in particular none to set the base time. *)
Lemma update_sync_info_offset_change_not_reapplied :
  let old_info := Samples.snapshot in
  let new_info := Samples.with_offset (5000 * GST_MSECOND) Samples.snapshot in
  let s := Samples.client old_info true DONE_SEEK (310 * GST_MSECOND) in
  base_time_offset old_info <> base_time_offset new_info /\
  exists s' calls,
    update_sync_info (Samples.answers 0 None true) new_info s =
      Some (tt, s', calls) /\
    existsb is_base_time calls = false /\
    ~ In (CallSetBaseTime (effective_base_time new_info (seek_offset s'))) calls.
Proof.
  cbn zeta. split; [cbn; discriminate|].
  do 2 eexists. split; [reflexivity|]. split; [reflexivity|].
  cbn. tauto.
Qed.

(** C8, as the code has it.  The first update stores the snapshot and
    connects the network clock at the snapshot's address and port, attaches
    the clock and [bus_cb] to the pipeline's bus, and does nothing else: it
    neither sets the locator or the latency nor commands a state.  Locator
    and latency are applied by [update_pipeline], which [bus_cb] runs when
    the clock reports synchronisation and the bounded wait succeeds. *)
Theorem update_sync_info_first_connects_clock
    (env : Env) (s : GstSyncClient) (i : GstSyncServerInfo) :
  info s = None ->
  exists s',
    update_sync_info env i s =
      Some (tt, s',
            [CallNetClientClockNew (clock_address i) (clock_port i);
             CallPipelineUseClock; CallClockSetBus; CallBusAddWatch;
             CallBusEnableSyncMessageEmission; CallSignalConnectAsyncDone]) /\
    info s' = Some i /\
    clock s' = Some (clock_address i, clock_port i) /\
    synchronised s' = synchronised s /\
    seek_state s' = seek_state s /\ seek_offset s' = seek_offset s /\
    forall env',
      synchronised s = false -> env_clock_wait_for_sync env' = true ->
      exists s'' calls,
        bus_cb env' (statistics true) s' =
          Some (true, s'',
                CallClockWaitForSync (10 * GST_SECOND)
                  :: CallSetUri (uri i) :: CallSetLatency (latency i) :: calls) /\
        synchronised s'' = true.
Proof.
  intros H. destruct s as [? ? sy ? ?]. cbn in H. subst.
  eexists. split; [reflexivity|]. cbn. repeat split.
  intros env' Hsy Hw. subst sy.
  unfold statistics. unfold_handlers. cbn.
  rewrite String.eqb_refl. cbn. rewrite Hw. cbn.
  destruct (stopped i); cbn.
  - destruct (env_set_state env' GST_STATE_NULL); cbn;
      do 2 eexists; split; reflexivity.
  - destruct (env_set_state env' GST_STATE_PAUSED), (paused i); cbn;
      do 2 eexists; split; reflexivity.
Qed.

Lemma update_sync_info_first_connects_clock_witness :
  exists s',
    update_sync_info (Samples.answers 0 None true) Samples.snapshot
      gst_sync_client_init =
      Some (tt, s',
            [CallNetClientClockNew "192.168.0.1" 3695;
             CallPipelineUseClock; CallClockSetBus; CallBusAddWatch;
             CallBusEnableSyncMessageEmission; CallSignalConnectAsyncDone]) /\
    info s' = Some Samples.snapshot.
Proof.
  destruct (update_sync_info_first_connects_clock
              (Samples.answers 0 None true) gst_sync_client_init
              Samples.snapshot eq_refl)
    as (s' & Hrun & Hinfo & _).
  exists s'. split; assumption.
Defined.

(** C8 as stated fails: the first update of a fresh client sets neither the
    locator nor the latency of the pipeline. *)
Lemma update_sync_info_first_configures_nothing :
  exists s' calls,
    update_sync_info (Samples.answers 0 None true) Samples.snapshot
      gst_sync_client_init = Some (tt, s', calls) /\
    existsb is_configuration calls = false /\
    ~ In (CallSetUri (uri Samples.snapshot)) calls /\
    ~ In (CallSetLatency (latency Samples.snapshot)) calls.
Proof.
  do 2 eexists. split; [reflexivity|]. split; [reflexivity|].
  split; cbn; intros H; repeat destruct H as [H|H]; try discriminate H; exact H.
Qed.

(** ** The seek sub-state-machine *)

(** C1 (the code departs from the claim).  The guard of the state-change
    case lets a message through when its old state is paused or its new
    state is playing.  A client that was started from a paused snapshot
    (seek phase NEED_SEEK) and is then stopped sees the pipeline report the
    step from paused down to ready; [bus_cb] takes it for the start of
    playback: it reads the clock, computes the position and seeks. *)
Theorem bus_cb_paused_to_ready_starts_seek :
  let paused_info := Samples.with_flags false true Samples.snapshot in
  let stopped_info := Samples.with_flags true true Samples.snapshot in
  let env := Samples.answers (1300 * GST_MSECOND) None true in
  let going_down :=
    GST_MESSAGE_STATE_CHANGED SrcPipeline GST_STATE_PAUSED GST_STATE_READY in
  run [(EvSyncInfo paused_info, env); (EvBus (statistics true), env);
       (EvSyncInfo stopped_info, env)] gst_sync_client_init =
    Some (tt, Samples.client stopped_info true NEED_SEEK 0,
          [CallNetClientClockNew "192.168.0.1" 3695;
           CallPipelineUseClock; CallClockSetBus; CallBusAddWatch;
           CallBusEnableSyncMessageEmission; CallSignalConnectAsyncDone;
           CallClockWaitForSync (10 * GST_SECOND);
           CallSetUri "file:///a.ogg"; CallSetLatency (300 * GST_MSECOND);
           CallSetState GST_STATE_PAUSED;
           CallSetState GST_STATE_NULL;
           CallSetUri "file:///a.ogg"; CallSetLatency (300 * GST_MSECOND);
           CallSetState GST_STATE_NULL]) /\
  bus_cb env going_down (Samples.client stopped_info true NEED_SEEK 0) =
    Some (true, Samples.client stopped_info true IN_SEEK 0,
          [CallClockGetTime; CallSeekSimple (300 * GST_MSECOND)]).
Proof.
  cbn zeta. split; reflexivity.
Qed.

(** C4.  At the pipeline's paused-to-playing message, with the seek phase
    NEED_SEEK, [bus_cb] reads the clock and seeks to the position
    [now - base_time - base_time_offset] exactly when that position exceeds
    [DEFAULT_SEEK_TOLERANCE] (200 ms); no other seek is made.  At or below
    the tolerance no seek is made, the phase ends at DONE_SEEK and
    [seek_offset] keeps its value, which is zero. *)
Theorem bus_cb_seek_iff_beyond_tolerance
    (env : Env) (s : GstSyncClient) (i : GstSyncServerInfo) :
  reachable s -> info s = Some i -> seek_state s = NEED_SEEK ->
  let position := position_at (env_clock_get_time env) i in
  position = wrap64 (env_clock_get_time env - base_time i - base_time_offset i) /\
  DEFAULT_SEEK_TOLERANCE = 200 * 1000000 /\
  exists s' calls,
    bus_cb env play_transition s = Some (true, s', CallClockGetTime :: calls) /\
    (In (CallSeekSimple position) calls <-> position > DEFAULT_SEEK_TOLERANCE) /\
    (forall p, In (CallSeekSimple p) calls -> p = position) /\
    (position <= DEFAULT_SEEK_TOLERANCE ->
       calls = [] /\ seek_state s' = DONE_SEEK /\
       seek_offset s' = seek_offset s /\ seek_offset s' = 0).
Proof.
  intros Hr Hi Hs position.
  split; [apply sub64_sub64|]. split; [reflexivity|].
  unfold play_transition.
  rewrite (bus_cb_state_changed_acts env s i _ _ _ Hi)
    by (unfold state_change_acts; rewrite Hs; reflexivity).
  do 2 eexists. split; [reflexivity|].
  fold position. unfold seek_calls, phase_after_play. cbn [seek_state seek_offset].
  destruct (position >? DEFAULT_SEEK_TOLERANCE) eqn:Hgt.
  - apply Z.gtb_gt in Hgt. split; [|split].
    + split; [intros _; exact Hgt | intros _; left; reflexivity].
    + intros p [Hp|Hp]; [congruence|].
      destruct (env_seek_simple env position); cbn in Hp;
        [contradiction | destruct Hp as [Hp|[]]; discriminate Hp].
    + intros Hle. lia.
  - assert (Hle : position <= DEFAULT_SEEK_TOLERANCE).
    { destruct (Z.gtb_spec position DEFAULT_SEEK_TOLERANCE); [discriminate|lia]. }
    split; [|split].
    + split; [intros [] | lia].
    + intros p [].
    + intros _. repeat split. apply (reachable_need_seek_zero s Hr Hs).
Qed.

(** The client just after its first snapshot and a confirmed clock, with
    the clock reading 1150 ms against a base time of 1000 ms: position
    150 ms, no seek. *)
Lemma bus_cb_seek_iff_beyond_tolerance_witness :
  exists s' calls,
    bus_cb (Samples.answers (1150 * GST_MSECOND) None true) play_transition
      (Samples.client Samples.snapshot true NEED_SEEK 0) =
      Some (true, s', CallClockGetTime :: calls) /\
    calls = [] /\ seek_state s' = DONE_SEEK /\ seek_offset s' = 0.
Proof.
  assert (Hr : reachable (Samples.client Samples.snapshot true NEED_SEEK 0)).
  { exists [(EvSyncInfo Samples.snapshot, Samples.answers 0 None true);
            (EvBus (statistics true), Samples.answers 0 None true)].
    eexists. reflexivity. }
  destruct (bus_cb_seek_iff_beyond_tolerance
              (Samples.answers (1150 * GST_MSECOND) None true)
              (Samples.client Samples.snapshot true NEED_SEEK 0)
              Samples.snapshot Hr eq_refl eq_refl)
    as (_ & _ & s' & calls & Hrun & _ & _ & Hbelow).
  exists s', calls. split; [exact Hrun|].
  destruct Hbelow as (Hc & Hph & _ & Hoff).
  - vm_compute. discriminate.
  - repeat split; assumption.
Defined.




(** C9, as the code has it.  When the clock reads less than
    [base_time + base_time_offset] and the shortfall [d] is below
    [2^64 - DEFAULT_SEEK_TOLERANCE], the position computed at the
    paused-to-playing message wraps to [2^64 - d], which exceeds the
    tolerance, and [bus_cb] seeks to it. *)
Theorem bus_cb_clock_behind_seeks_wrapped
    (env : Env) (s : GstSyncClient) (i : GstSyncServerInfo) :
  info s = Some i -> seek_state s = NEED_SEEK ->
  env_clock_get_time env < base_time i + base_time_offset i ->
  base_time i + base_time_offset i - env_clock_get_time env
    < 2 ^ 64 - DEFAULT_SEEK_TOLERANCE ->
  let position :=
    2 ^ 64 - (base_time i + base_time_offset i - env_clock_get_time env) in
  position_at (env_clock_get_time env) i = position /\
  position > DEFAULT_SEEK_TOLERANCE /\
  exists s' calls,
    bus_cb env play_transition s =
      Some (true, s', CallClockGetTime :: CallSeekSimple position :: calls) /\
    seek_state s' = (if env_seek_simple env position then IN_SEEK else DONE_SEEK).
Proof.
  intros Hi Hs Hlt Hd position.
  assert (Hpos : position_at (env_clock_get_time env) i = position).
  { apply position_behind. rewrite DEFAULT_SEEK_TOLERANCE_value in Hd. lia. }
  assert (Hgt : position > DEFAULT_SEEK_TOLERANCE) by (unfold position; lia).
  split; [exact Hpos|]. split; [exact Hgt|].
  unfold play_transition.
  rewrite (bus_cb_state_changed_acts env s i _ _ _ Hi)
    by (unfold state_change_acts; rewrite Hs; reflexivity).
  rewrite Hpos. unfold seek_calls, phase_after_play.
  apply Z.gtb_gt in Hgt. rewrite Hgt.
  do 2 eexists. split; reflexivity.
Qed.

(** A clock 1 s behind the time base: the seek goes to [2^64 - 10^9]. *)
Lemma bus_cb_clock_behind_seeks_wrapped_witness :
  exists s' calls,
    bus_cb (Samples.answers 0 None true) play_transition
      (Samples.client Samples.snapshot true NEED_SEEK 0) =
      Some (true, s',
            CallClockGetTime :: CallSeekSimple (2 ^ 64 - 1000000000) :: calls).
Proof.
  destruct (bus_cb_clock_behind_seeks_wrapped
              (Samples.answers 0 None true)
              (Samples.client Samples.snapshot true NEED_SEEK 0)
              Samples.snapshot eq_refl eq_refl)
    as (_ & _ & s' & calls & Hrun & _).
  - vm_compute. reflexivity.
  - vm_compute. reflexivity.
  - exists s', calls. exact Hrun.
Defined.

(** C9 as stated fails: with the clock at 100 ns and a base time of
    [2^64 - 100] ns (offset 0) the clock is behind the time base, yet the
    position wraps to 200 ns, within the tolerance, and no seek is made. *)
Lemma bus_cb_clock_behind_wraps_within_tolerance :
  let i := Samples.with_base_time (2 ^ 64 - 100) Samples.snapshot in
  let env := Samples.answers 100 None true in
  in_u64 (env_clock_get_time env) /\ in_u64 (base_time i) /\
  in_u64 (base_time_offset i) /\
  env_clock_get_time env < base_time i + base_time_offset i /\
  position_at (env_clock_get_time env) i = 200 /\
  bus_cb env play_transition (Samples.client i true NEED_SEEK 0) =
    Some (true, Samples.client i true DONE_SEEK 0, [CallClockGetTime]).
Proof.
  cbn zeta. unfold in_u64. repeat split; try (vm_compute; congruence).
Qed.

(** ** Clock synchronisation *)

(** C6, as the code has it.  The synchronised flag is false in a fresh
    client and, read between handler invocations, never goes back from true
    to false: whatever events follow a state in which it is set, it is still
    set after them. *)
Theorem synchronised_monotone_between_handlers
    (before after : list (Event * Env)) (s1 s2 : GstSyncClient)
    (c1 c2 : list Call) :
  run before gst_sync_client_init = Some (tt, s1, c1) ->
  run after s1 = Some (tt, s2, c2) ->
  synchronised gst_sync_client_init = false /\
  (synchronised s1 = true -> synchronised s2 = true).
Proof.
  intros _ H2. split; [reflexivity|].
  apply (run_invariant (fun s => synchronised s = true)) with (2 := H2).
  intros ev env s s' calls H. exact (handle_keeps_synchronised env ev s s' calls H).
Qed.

(** Once synchronised and playing, a statistics message reporting the flag
    unset, a stop and a restart leave the flag set. *)
Lemma synchronised_monotone_between_handlers_witness :
  exists s1 c1 s2 c2,
    run [(EvSyncInfo Samples.snapshot, Samples.answers 0 None true);
         (EvBus (statistics true), Samples.answers 0 None true)]
      gst_sync_client_init = Some (tt, s1, c1) /\
    run [(EvBus (statistics false), Samples.answers 0 None false);
         (EvSyncInfo (Samples.with_flags true false Samples.snapshot),
          Samples.answers 0 None false);
         (EvSyncInfo Samples.snapshot, Samples.refusing true)]
      s1 = Some (tt, s2, c2) /\
    synchronised s1 = true /\ synchronised s2 = true.
Proof.
  do 4 eexists.
  split; [reflexivity|]. split; [reflexivity|]. split; [reflexivity|].
  exact (proj2 (synchronised_monotone_between_handlers
                  [(EvSyncInfo Samples.snapshot, Samples.answers 0 None true);
                   (EvBus (statistics true), Samples.answers 0 None true)]
                  [(EvBus (statistics false), Samples.answers 0 None false);
                   (EvSyncInfo (Samples.with_flags true false Samples.snapshot),
                    Samples.answers 0 None false);
                   (EvSyncInfo Samples.snapshot, Samples.refusing true)]
                  _ _ _ _ eq_refl eq_refl) eq_refl).
Defined.

(** C6 as stated fails: inside the statistics case the flag is taken from
    the message before the bounded wait, and reset when the wait fails.
    The client below has just stored its first snapshot; while
    [gst_clock_wait_for_sync] blocks its flag is true, and when the wait
    times out the flag is false again. *)
Lemma synchronised_reset_on_failed_wait :
  let env := Samples.answers 0 None false in
  let s := Samples.client Samples.snapshot false NEED_SEEK 0 in
  let during := Samples.client Samples.snapshot true NEED_SEEK 0 in
  run [(EvSyncInfo Samples.snapshot, env)] gst_sync_client_init
    = Some (tt, s,
            [CallNetClientClockNew "192.168.0.1" 3695;
             CallPipelineUseClock; CallClockSetBus; CallBusAddWatch;
             CallBusEnableSyncMessageEmission; CallSignalConnectAsyncDone]) /\
  match statistics true with
  | GST_MESSAGE_ELEMENT st =>
      bus_cb_element_until_wait st s = Some (true, during, [])
  | _ => False
  end /\
  synchronised during = true /\
  bus_cb_element_from_wait env during =
    Some (tt, s, [CallClockWaitForSync (10 * GST_SECOND);
                  Error "Could not synchronise clock"]) /\
  bus_cb env (statistics true) s =
    Some (true, s, [CallClockWaitForSync (10 * GST_SECOND);
                    Error "Could not synchronise clock"]) /\
  synchronised s = false.
Proof.
  cbn zeta. repeat split.
Qed.

(** C7.  After the first snapshot, as long as no bus message confirms
    synchronisation (a statistics message with the flag set followed by a
    successful 10 s wait), the client stays unsynchronised, the pipeline is
    never configured and neither the paused nor the playing state is ever
    commanded; unless the pipeline itself posts an end-of-stream, no state
    command at all is issued. *)
Theorem no_state_command_until_sync_confirmed
    (i : GstSyncServerInfo) (env0 : Env) (ms : list (GstMessage * Env)) :
  Forall (fun me => sync_confirmed (fst me) (snd me) = false) ms ->
  exists s' calls,
    run ((EvSyncInfo i, env0) :: bus_events ms) gst_sync_client_init =
      Some (tt, s', calls) /\
    synchronised s' = false /\
    existsb is_play_command calls = false /\
    existsb is_configuration calls = false /\
    (Forall (fun me => is_pipeline_eos (fst me) = false) ms ->
     existsb is_state_command calls = false).
Proof.
  intros Hms.
  destruct (first_update_eq env0 gst_sync_client_init i eq_refl)
    as (s1 & Hup & Hsy).
  cut (forall s, synchronised s = false ->
         exists s' calls,
           run (bus_events ms) s = Some (tt, s', calls) /\
           synchronised s' = false /\
           existsb is_play_command calls = false /\
           existsb is_configuration calls = false /\
           (Forall (fun me => is_pipeline_eos (fst me) = false) ms ->
            existsb is_state_command calls = false)).
  { intros Hcut. destruct (Hcut s1 Hsy) as (s' & calls & Hrun & Hs' & Hp & Hc & He).
    do 2 eexists. split; [eapply run_step; [exact Hup|exact Hrun]|].
    rewrite !existsb_app. cbn. auto. }
  induction Hms as [|[m env] rest Hm _ IH]; intros s Hs.
  - exists s, []. cbn. auto.
  - cbn [fst snd] in Hm.
    destruct (handle_total env (EvBus m) s) as (s1' & c1 & H1).
    destruct (handle_bus_unconfirmed m env s s1' c1 Hm H1 Hs)
      as (Hs1 & Hp1 & Hc1 & He1).
    destruct (IH s1' Hs1) as (s' & c2 & H2 & Hs' & Hp2 & Hc2 & He2).
    exists s', (c1 ++ c2). split; [cbn [bus_events map]; eapply run_step; eauto|].
    rewrite !existsb_app, Hp1, Hp2, Hc1, Hc2. repeat split; auto.
    intros Hall. inversion Hall; subst. cbn [fst] in *.
    rewrite He1, He2; auto.
Qed.

(** Statistics messages that report no synchronisation, one whose wait times
    out, and stray messages from the pipeline: no state command. *)
Lemma no_state_command_until_sync_confirmed_witness :
  exists s' calls,
    run ((EvSyncInfo Samples.snapshot, Samples.answers 0 None false)
           :: bus_events
                [(statistics false, Samples.answers 0 None true);
                 (statistics true, Samples.answers 0 None false);
                 (GST_MESSAGE_OTHER, Samples.answers 0 None true);
                 (play_transition, Samples.answers 0 None true)])
      gst_sync_client_init = Some (tt, s', calls) /\
    synchronised s' = false /\
    existsb is_state_command calls = false.
Proof.
  destruct (no_state_command_until_sync_confirmed Samples.snapshot
              (Samples.answers 0 None false)
              [(statistics false, Samples.answers 0 None true);
               (statistics true, Samples.answers 0 None false);
               (GST_MESSAGE_OTHER, Samples.answers 0 None true);
               (play_transition, Samples.answers 0 None true)])
    as (s' & calls & Hrun & Hs & _ & _ & He).
  - repeat constructor.
  - exists s', calls. split; [exact Hrun|]. split; [exact Hs|].
    apply He. repeat constructor.
Defined.


(** * Further properties *)

#[local] Arguments update_pipeline : simpl never.
#[local] Arguments set_base_time : simpl never.

(** ** Equations shared by the proofs below *)

(** The restart branches of [update_sync_info], as one equation. *)
Lemma restart_branch_eq
    (env : Env) (s : GstSyncClient) (old_info new_info : GstSyncServerInfo) :
  info s = Some old_info -> stopped new_info = false ->
  stopped old_info = true \/ uri old_info <> uri new_info \/
  (paused old_info = paused new_info /\ base_time old_info <> base_time new_info) ->
  update_sync_info env new_info s =
    Some (tt,
          with_seek (phase_after_start env (env_set_state env GST_STATE_PAUSED)) 0
            (with_info new_info s),
          [CallSetState GST_STATE_NULL;
           CallSetUri (uri new_info); CallSetLatency (latency new_info);
           CallSetState GST_STATE_PAUSED]
          ++ play_warning (env_set_state env GST_STATE_PAUSED) new_info
          ++ play_calls new_info).
Proof.
  intros H Hst Hor. open_client s H.
  assert (Hup := update_pipeline_started_eq env
                   (with_info new_info
                      {| info := Some old_info; clock := clock0;
                         synchronised := synchronised0;
                         seek_state := seek_state0;
                         seek_offset := seek_offset0 |})
                   new_info eq_refl Hst).
  unfold with_info, with_seek, play_warning in *.
  cbn [info clock synchronised seek_state seek_offset] in Hup.
  unfold update_sync_info. unfold_monad. cbn. rewrite Hst.
  destruct Hor as [Ho|[Hu|[Hp Hb]]].
  - rewrite Ho. cbn. rewrite Hup. reflexivity.
  - apply String.eqb_neq in Hu. rewrite Hu, orb_true_r. rewrite Hup. reflexivity.
  - destruct (negb (Bool.eqb (stopped old_info) false)
              || negb (String.eqb (uri old_info) (uri new_info))).
    + rewrite Hup. reflexivity.
    + rewrite Hp, Bool.eqb_reflx. cbn. apply Z.eqb_neq in Hb. rewrite Hb. cbn.
      rewrite Hup. reflexivity.
Qed.

(** ** What a later snapshot does to the pipeline *)

(** X1.  A later update always stores the new snapshot, and it makes no
    call at all exactly when the new snapshot agrees with the stored one on
    stopped, uri, paused and base_time; latency, base_time_offset and the
    clock endpoint are not looked at. *)
Theorem update_sync_info_silent_iff_same_diffed_fields
    (env : Env) (s : GstSyncClient) (old_info new_info : GstSyncServerInfo) :
  info s = Some old_info ->
  exists s' calls,
    update_sync_info env new_info s = Some (tt, s', calls) /\
    info s' = Some new_info /\ clock s' = clock s /\
    synchronised s' = synchronised s /\
    (calls = [] <-> same_diffed_fields old_info new_info = true).
Proof.
  intros H. open_client s H. unfold same_diffed_fields.
  unfold_handlers. cbn.
  destruct (Bool.eqb (stopped old_info) (stopped new_info)),
    (String.eqb (uri old_info) (uri new_info)),
    (Bool.eqb (paused old_info) (paused new_info)),
    (base_time old_info =? base_time new_info); cbn;
    handler_cases;
    (do 2 eexists; split; [reflexivity|]; cbn; repeat split;
     intros; discriminate).
Qed.

Lemma update_sync_info_silent_iff_same_diffed_fields_witness :
  exists s' calls,
    update_sync_info (Samples.answers 0 None true)
      (Samples.with_base_time 5 Samples.snapshot)
      (Samples.client Samples.snapshot true DONE_SEEK 7) = Some (tt, s', calls) /\
    info s' = Some (Samples.with_base_time 5 Samples.snapshot) /\
    calls <> [].
Proof.
  destruct (update_sync_info_silent_iff_same_diffed_fields
              (Samples.answers 0 None true)
              (Samples.client Samples.snapshot true DONE_SEEK 7)
              Samples.snapshot (Samples.with_base_time 5 Samples.snapshot)
              eq_refl)
    as (s' & calls & Hrun & Hinfo & _ & _ & Hiff).
  exists s', calls. split; [exact Hrun|]. split; [exact Hinfo|].
  intros Hnil. apply Hiff in Hnil. vm_compute in Hnil. discriminate Hnil.
Defined.

(** X2.  When paused goes from FALSE to TRUE while stopped and the uri stay
    as they were, the update commands the paused state and nothing else:
    no base time is set, the seek fields are kept, even if base_time changed
    in the same snapshot. *)
Theorem update_sync_info_pause_only
    (env : Env) (s : GstSyncClient) (old_info new_info : GstSyncServerInfo) :
  info s = Some old_info ->
  stopped old_info = stopped new_info -> uri old_info = uri new_info ->
  paused old_info = false -> paused new_info = true ->
  update_sync_info env new_info s =
    Some (tt, with_info new_info s, [CallSetState GST_STATE_PAUSED]).
Proof.
  intros H Hst Hu Hp Hp'. open_client s H. unfold_handlers. cbn.
  rewrite Hst, Hu, Hp, Hp', Bool.eqb_reflx, String.eqb_refl. reflexivity.
Qed.

Lemma update_sync_info_pause_only_witness :
  update_sync_info (Samples.answers 0 None true)
    (Samples.with_flags false true Samples.snapshot)
    (Samples.client Samples.snapshot true DONE_SEEK 7) =
    Some (tt,
          Samples.client (Samples.with_flags false true Samples.snapshot)
            true DONE_SEEK 7,
          [CallSetState GST_STATE_PAUSED]).
Proof.
  exact (update_sync_info_pause_only (Samples.answers 0 None true)
           (Samples.client Samples.snapshot true DONE_SEEK 7)
           Samples.snapshot (Samples.with_flags false true Samples.snapshot)
           eq_refl eq_refl eq_refl eq_refl eq_refl).
Defined.

(** X3.  When paused goes from TRUE to FALSE while stopped and the uri stay
    as they were, the update applies the base time of the new snapshot
    (with its base_time_offset and the seek offset kept from before) and
    commands the playing state; the pipeline is not reset and the seek
    fields are kept.  The stopped flag is not consulted: this also happens
    when both snapshots are stopped. *)
Theorem update_sync_info_unpause
    (env : Env) (s : GstSyncClient) (old_info new_info : GstSyncServerInfo) :
  info s = Some old_info ->
  stopped old_info = stopped new_info -> uri old_info = uri new_info ->
  paused old_info = true -> paused new_info = false ->
  update_sync_info env new_info s =
    Some (tt, with_info new_info s,
          [CallSetStartTime GST_CLOCK_TIME_NONE;
           CallSetBaseTime (effective_base_time new_info (seek_offset s));
           CallSetState GST_STATE_PLAYING]).
Proof.
  intros H Hst Hu Hp Hp'. open_client s H. unfold_handlers. cbn.
  rewrite Hst, Hu, Hp, Hp', Bool.eqb_reflx, String.eqb_refl. reflexivity.
Qed.

Lemma update_sync_info_unpause_witness :
  update_sync_info (Samples.answers 0 None true)
    (Samples.with_flags true false Samples.snapshot)
    (Samples.client (Samples.with_flags true true Samples.snapshot)
       true DONE_SEEK 7) =
    Some (tt,
          Samples.client (Samples.with_flags true false Samples.snapshot)
            true DONE_SEEK 7,
          [CallSetStartTime GST_CLOCK_TIME_NONE;
           CallSetBaseTime (1000 * GST_MSECOND + 7);
           CallSetState GST_STATE_PLAYING]).
Proof.
  exact (update_sync_info_unpause (Samples.answers 0 None true)
           (Samples.client (Samples.with_flags true true Samples.snapshot)
              true DONE_SEEK 7)
           (Samples.with_flags true true Samples.snapshot)
           (Samples.with_flags true false Samples.snapshot)
           eq_refl eq_refl eq_refl eq_refl eq_refl).
Defined.

(** X4.  When the new snapshot is stopped and either the stored one was not
    or the uri changed, the pipeline is commanded to NULL (twice: by the
    update and by [update_pipeline]) after taking the new uri and latency;
    neither paused nor playing is commanded whatever the paused flags say,
    and the seek fields are kept. *)
Theorem update_sync_info_stop
    (env : Env) (s : GstSyncClient) (old_info new_info : GstSyncServerInfo) :
  info s = Some old_info -> stopped new_info = true ->
  stopped old_info = false \/ uri old_info <> uri new_info ->
  update_sync_info env new_info s =
    Some (tt, with_info new_info s,
          [CallSetState GST_STATE_NULL;
           CallSetUri (uri new_info); CallSetLatency (latency new_info);
           CallSetState GST_STATE_NULL]
          ++ stop_warning (env_set_state env GST_STATE_NULL)).
Proof.
  intros H Hst Hor. open_client s H.
  assert (Hup := update_pipeline_stopped_eq env
                   (with_info new_info
                      {| info := Some old_info; clock := clock0;
                         synchronised := synchronised0;
                         seek_state := seek_state0;
                         seek_offset := seek_offset0 |})
                   new_info eq_refl Hst).
  unfold with_info, stop_warning in *.
  cbn [info clock synchronised seek_state seek_offset] in Hup.
  unfold update_sync_info. unfold_monad. cbn. rewrite Hst.
  assert (Hc : negb (Bool.eqb (stopped old_info) true)
               || negb (String.eqb (uri old_info) (uri new_info)) = true).
  { destruct Hor as [Ho|Hu].
    - rewrite Ho. reflexivity.
    - apply String.eqb_neq in Hu. rewrite Hu. apply orb_true_r. }
  rewrite Hc, Hup. reflexivity.
Qed.

Lemma update_sync_info_stop_witness :
  update_sync_info (Samples.answers 0 None true)
    (Samples.with_flags true false Samples.snapshot)
    (Samples.client Samples.snapshot true DONE_SEEK 7) =
    Some (tt,
          Samples.client (Samples.with_flags true false Samples.snapshot)
            true DONE_SEEK 7,
          [CallSetState GST_STATE_NULL;
           CallSetUri "file:///a.ogg"; CallSetLatency (300 * GST_MSECOND);
           CallSetState GST_STATE_NULL]).
Proof.
  exact (update_sync_info_stop (Samples.answers 0 None true)
           (Samples.client Samples.snapshot true DONE_SEEK 7)
           Samples.snapshot (Samples.with_flags true false Samples.snapshot)
           eq_refl eq_refl (or_introl eq_refl)).
Defined.

(** X5.  When the new snapshot is not stopped and the stored one was, or the
    uri changed, or base_time changed with paused unchanged, the pipeline is
    restarted: NULL, new uri and latency, paused, and, unless the snapshot
    is paused, the base time without seek offset and playing.  The seek
    offset is back at zero and the seek phase set afresh. *)
Theorem update_sync_info_restart
    (env : Env) (s : GstSyncClient) (old_info new_info : GstSyncServerInfo) :
  info s = Some old_info -> stopped new_info = false ->
  stopped old_info = true \/ uri old_info <> uri new_info \/
  (paused old_info = paused new_info /\ base_time old_info <> base_time new_info) ->
  update_sync_info env new_info s =
    Some (tt,
          with_seek (phase_after_start env (env_set_state env GST_STATE_PAUSED)) 0
            (with_info new_info s),
          [CallSetState GST_STATE_NULL;
           CallSetUri (uri new_info); CallSetLatency (latency new_info);
           CallSetState GST_STATE_PAUSED]
          ++ play_warning (env_set_state env GST_STATE_PAUSED) new_info
          ++ play_calls new_info).
Proof. exact (restart_branch_eq env s old_info new_info). Qed.

Lemma update_sync_info_restart_witness :
  update_sync_info (Samples.answers 0 None true)
    (Samples.with_base_time 5 Samples.snapshot)
    (Samples.client Samples.snapshot true DONE_SEEK 7) =
    Some (tt,
          Samples.client (Samples.with_base_time 5 Samples.snapshot)
            true NEED_SEEK 0,
          [CallSetState GST_STATE_NULL;
           CallSetUri "file:///a.ogg"; CallSetLatency (300 * GST_MSECOND);
           CallSetState GST_STATE_PAUSED;
           CallSetStartTime GST_CLOCK_TIME_NONE; CallSetBaseTime 5;
           CallSetState GST_STATE_PLAYING]).
Proof.
  refine (update_sync_info_restart (Samples.answers 0 None true)
            (Samples.client Samples.snapshot true DONE_SEEK 7)
            Samples.snapshot (Samples.with_base_time 5 Samples.snapshot)
            eq_refl eq_refl (or_intror (or_intror (conj eq_refl _)))).
  vm_compute. discriminate.
Defined.

(** ** Invariants of event sequences *)

Section RunInvariants.

Lemma count_calls_app (p : Call -> bool) (a b : list Call) :
  count_calls p (a ++ b) = (count_calls p a + count_calls p b)%nat.
Proof. unfold count_calls. rewrite filter_app. apply length_app. Qed.

Lemma handle_info (ev : Event) (env : Env) (s s' : GstSyncClient)
    (calls : list Call) :
  handle ev env s = Some (tt, s', calls) ->
  info s' = match ev with EvSyncInfo i => Some i | EvBus _ => info s end.
Proof.
  destruct s as [[i|] ? ? ? ?]; destruct ev as [ni|[st|src o n|src|src|]];
    intros H; revert H; unfold_handlers; handler_cases; intros H;
    try discriminate; inversion H; subst; reflexivity.
Qed.

Lemma handle_keeps_clock (ev : Event) (env : Env) (s s' : GstSyncClient)
    (calls : list Call) :
  handle ev env s = Some (tt, s', calls) -> info s <> None ->
  clock s' = clock s /\ count_calls is_clock_new calls = 0%nat.
Proof.
  destruct s as [[i|] ? ? ? ?]; [|intros _ H; now contradiction H].
  destruct ev as [ni|[st|src o n|src|src|]];
    intros H _; revert H; unfold_handlers; handler_cases; intros H;
    try discriminate; inversion H; subst; split; reflexivity.
Qed.

Lemma handle_offset_zero_until_done (ev : Event) (env : Env)
    (s s' : GstSyncClient) (calls : list Call) :
  handle ev env s = Some (tt, s', calls) ->
  (seek_state s <> DONE_SEEK -> seek_offset s = 0) ->
  seek_state s' <> DONE_SEEK -> seek_offset s' = 0.
Proof.
  destruct s as [[i|] ? ? [| |] so]; destruct ev as [ni|[st|src o n|src|src|]];
    cbn [seek_state seek_offset]; intros H; revert H;
    unfold_handlers; handler_cases; intros H;
    try discriminate; inversion H; subst; cbn;
    intros Hz Hd; try reflexivity;
    try (exfalso; apply Hd; reflexivity);
    apply Hz; discriminate.
Qed.

Lemma play_follows_weaken (b : bool) (calls : list Call) :
  play_follows_base_time false calls = true ->
  play_follows_base_time b calls = true.
Proof.
  destruct calls as [|c rest]; [reflexivity|]. cbn.
  destruct (is_playing_command c); [discriminate|]. auto.
Qed.

Lemma play_follows_app (b : bool) (c1 c2 : list Call) :
  play_follows_base_time b c1 = true ->
  play_follows_base_time false c2 = true ->
  play_follows_base_time b (c1 ++ c2) = true.
Proof.
  revert b. induction c1 as [|c rest IH]; intros b H1 H2.
  - now apply play_follows_weaken.
  - cbn in *. apply andb_true_iff in H1. destruct H1 as [Hc Hr].
    rewrite Hc. cbn. now apply IH.
Qed.

Lemma play_follows_spec (calls : list Call) :
  forall (b : bool) (pre post : list Call),
    play_follows_base_time b calls = true ->
    calls = pre ++ CallSetState GST_STATE_PLAYING :: post ->
    (pre = [] /\ b = true) \/
    exists pre' t, pre = pre' ++ [CallSetBaseTime t].
Proof.
  induction calls as [|c rest IH]; intros b pre post H E.
  - destruct pre; discriminate E.
  - cbn in H. apply andb_true_iff in H. destruct H as [Hc Hr].
    destruct pre as [|p pre].
    + cbn in E. inversion E; subst. cbn in Hc. left. auto.
    + cbn in E. inversion E; subst. right.
      destruct (IH _ pre post Hr eq_refl) as [[Hp Hb]|(pre' & t & Hp)].
      * subst pre. destruct p; try discriminate Hb. exists [], t. reflexivity.
      * subst pre. exists (p :: pre'), t. reflexivity.
Qed.

Lemma handle_play_follows (ev : Event) (env : Env) (s s' : GstSyncClient)
    (calls : list Call) :
  handle ev env s = Some (tt, s', calls) ->
  play_follows_base_time false calls = true.
Proof.
  destruct s as [[i|] ? ? ? ?]; destruct ev as [ni|[st|src o n|src|src|]];
    intros H; revert H; unfold_handlers; handler_cases; intros H;
    try discriminate; inversion H; subst; reflexivity.
Qed.

Lemma handle_bus_synchronised (m : GstMessage) (env : Env)
    (s s' : GstSyncClient) (calls : list Call) :
  synchronised s = true ->
  handle (EvBus m) env s = Some (tt, s', calls) ->
  synchronised s' = true /\
  (count_calls is_seek calls + seeks_left (seek_state s')
   <= seeks_left (seek_state s))%nat /\
  (count_calls is_clock_read calls + seeks_left (seek_state s')
   <= seeks_left (seek_state s))%nat /\
  (count_calls is_base_time calls + base_times_left (seek_state s')
   <= base_times_left (seek_state s))%nat /\
  existsb is_play_command calls = false /\
  existsb is_configuration calls = false.
Proof.
  destruct s as [[i|] ? sy [| |] ?]; destruct m as [st|src o n|src|src|];
    cbn [synchronised seek_state]; intros Hsy H; subst sy; revert H;
    unfold_handlers; handler_cases; intros H;
    try discriminate; inversion H; subst; cbn;
    repeat split; try lia; try discriminate.
Qed.

(** The first update, with the snapshot and the clock it leaves. *)
Lemma first_update_stores_and_connects (env : Env)
    (s : GstSyncClient) (i : GstSyncServerInfo) :
  info s = None ->
  exists s',
    handle (EvSyncInfo i) env s =
      Some (tt, s',
            [CallNetClientClockNew (clock_address i) (clock_port i);
             CallPipelineUseClock; CallClockSetBus; CallBusAddWatch;
             CallBusEnableSyncMessageEmission; CallSignalConnectAsyncDone]) /\
    info s' = Some i /\ clock s' = Some (clock_address i, clock_port i).
Proof.
  intros H. destruct s as [? ? sy ? ?]. cbn in H. subst.
  eexists. split; [reflexivity|]. split; reflexivity.
Qed.

(** The unpausing update, as an equation shared by later proofs. *)
Lemma unpause_branch_eq (env : Env) (s : GstSyncClient)
    (old_info new_info : GstSyncServerInfo) :
  info s = Some old_info /\
  stopped old_info = stopped new_info /\ uri new_info = uri old_info /\
  paused old_info = true /\ paused new_info = false ->
  update_sync_info env new_info s =
    Some (tt, with_info new_info s,
          [CallSetStartTime GST_CLOCK_TIME_NONE;
           CallSetBaseTime (effective_base_time new_info (seek_offset s));
           CallSetState GST_STATE_PLAYING]).
Proof.
  intros (H & Hst & Hu & Hp & Hp'). open_client s H. unfold_handlers. cbn.
  rewrite Hst, Hu, Hp, Hp', Bool.eqb_reflx, String.eqb_refl. reflexivity.
Qed.

End RunInvariants.

(** X6.  The network clock is created once: whatever events follow the
    first snapshot, and whatever clock endpoint later snapshots carry, the
    client's clock remains the one made from the first snapshot's address
    and port, and [gst_net_client_clock_new] was called exactly once. *)
Theorem clock_created_once_from_first_snapshot
    (i0 : GstSyncServerInfo) (env0 : Env) (evs : list (Event * Env))
    (s0 : GstSyncClient) :
  info s0 = None ->
  exists s calls,
    run ((EvSyncInfo i0, env0) :: evs) s0 = Some (tt, s, calls) /\
    clock s = Some (clock_address i0, clock_port i0) /\
    count_calls is_clock_new calls = 1%nat.
Proof.
  intros H0.
  destruct (first_update_stores_and_connects env0 s0 i0 H0)
    as (s1 & H1 & Hi1 & Hc1).
  cut (forall s, info s <> None ->
         exists s' calls,
           run evs s = Some (tt, s', calls) /\
           clock s' = clock s /\ count_calls is_clock_new calls = 0%nat).
  { intros Hcut. destruct (Hcut s1) as (s' & c2 & H2 & Hc & Hn).
    - rewrite Hi1. discriminate.
    - do 2 eexists. split; [eapply run_step; [exact H1|exact H2]|].
      split; [congruence|]. rewrite count_calls_app, Hn. reflexivity. }
  clear. induction evs as [|[ev env] rest IH]; intros s Hs.
  - exists s, []. repeat split.
  - destruct (handle_total env ev s) as (s1 & c1 & H1).
    destruct (handle_keeps_clock ev env s s1 c1 H1 Hs) as (Hc1 & Hn1).
    assert (Hs1 : info s1 <> None).
    { rewrite (handle_info ev env s s1 c1 H1). destruct ev; [discriminate|exact Hs]. }
    destruct (IH s1 Hs1) as (s' & c2 & H2 & Hc2 & Hn2).
    exists s', (c1 ++ c2). split; [eapply run_step; eauto|].
    split; [congruence|]. rewrite count_calls_app, Hn1, Hn2. reflexivity.
Qed.

Lemma clock_created_once_from_first_snapshot_witness :
  exists s calls,
    run [(EvSyncInfo Samples.snapshot, Samples.answers 0 None true);
         (EvSyncInfo
            {| clock_address := "10.0.0.9"; clock_port := 1;
               uri := "file:///b.ogg"; base_time := 0; base_time_offset := 0;
               latency := 0; stopped := false; paused := false |},
          Samples.answers 0 None true)]
      gst_sync_client_init = Some (tt, s, calls) /\
    clock s = Some ("192.168.0.1"%string, 3695).
Proof.
  destruct (clock_created_once_from_first_snapshot Samples.snapshot
              (Samples.answers 0 None true)
              [(EvSyncInfo
                  {| clock_address := "10.0.0.9"; clock_port := 1;
                     uri := "file:///b.ogg"; base_time := 0;
                     base_time_offset := 0;
                     latency := 0; stopped := false; paused := false |},
                Samples.answers 0 None true)]
              gst_sync_client_init eq_refl)
    as (s & calls & Hrun & Hclock & _).
  exists s, calls. split; assumption.
Defined.

(** X7.  The stored snapshot is always the one received last: after any
    sequence of events the client holds the snapshot of the last
    notification, bus messages never replacing or dropping it. *)
Theorem info_is_last_snapshot
    (evs : list (Event * Env)) (s0 : GstSyncClient) :
  exists s calls,
    run evs s0 = Some (tt, s, calls) /\
    info s = last_snapshot evs (info s0).
Proof.
  revert s0. induction evs as [|[ev env] rest IH]; intros s0.
  - exists s0, []. split; reflexivity.
  - destruct (handle_total env ev s0) as (s1 & c1 & H1).
    destruct (IH s1) as (s & c2 & H2 & Hi).
    exists s, (c1 ++ c2). split; [eapply run_step; eauto|].
    rewrite Hi, (handle_info ev env s0 s1 c1 H1). destruct ev; reflexivity.
Qed.

(** X8.  The playing state is never commanded without the base time having
    been handed to the pipeline in the call just before: in the calls of any
    sequence of events, each command to GST_STATE_PLAYING directly follows
    a [gst_element_set_base_time]. *)
Theorem playing_always_follows_base_time
    (evs : list (Event * Env)) (s0 s : GstSyncClient)
    (calls pre post : list Call) :
  run evs s0 = Some (tt, s, calls) ->
  calls = pre ++ CallSetState GST_STATE_PLAYING :: post ->
  exists pre' t, pre = pre' ++ [CallSetBaseTime t].
Proof.
  intros Hrun E.
  assert (Hp : play_follows_base_time false calls = true).
  { clear E. revert s0 s calls Hrun.
    induction evs as [|[ev env] rest IH]; intros s0 s calls Hrun.
    - cbn in Hrun. inversion Hrun. reflexivity.
    - apply run_step_inv in Hrun.
      destruct Hrun as (s1 & c1 & c2 & H1 & H2 & ->).
      apply play_follows_app.
      + exact (handle_play_follows ev env s0 s1 c1 H1).
      + exact (IH s1 s c2 H2). }
  destruct (play_follows_spec calls false pre post Hp E) as [[_ Hb]|Hex].
  - discriminate Hb.
  - exact Hex.
Qed.

Lemma playing_always_follows_base_time_witness :
  exists pre' t,
    [CallNetClientClockNew "192.168.0.1" 3695;
     CallPipelineUseClock; CallClockSetBus; CallBusAddWatch;
     CallBusEnableSyncMessageEmission; CallSignalConnectAsyncDone;
     CallClockWaitForSync (10 * GST_SECOND);
     CallSetUri "file:///a.ogg"; CallSetLatency (300 * GST_MSECOND);
     CallSetState GST_STATE_PAUSED;
     CallSetStartTime GST_CLOCK_TIME_NONE;
     CallSetBaseTime (1000 * GST_MSECOND)] = pre' ++ [CallSetBaseTime t].
Proof.
  apply (playing_always_follows_base_time
           [(EvSyncInfo Samples.snapshot, Samples.answers 0 None true);
            (EvBus (statistics true), Samples.answers 0 None true)]
           gst_sync_client_init
           (Samples.client Samples.snapshot true NEED_SEEK 0)
           [CallNetClientClockNew "192.168.0.1" 3695;
            CallPipelineUseClock; CallClockSetBus; CallBusAddWatch;
            CallBusEnableSyncMessageEmission; CallSignalConnectAsyncDone;
            CallClockWaitForSync (10 * GST_SECOND);
            CallSetUri "file:///a.ogg"; CallSetLatency (300 * GST_MSECOND);
            CallSetState GST_STATE_PAUSED;
            CallSetStartTime GST_CLOCK_TIME_NONE;
            CallSetBaseTime (1000 * GST_MSECOND);
            CallSetState GST_STATE_PLAYING]
           _ []).
  - vm_compute. reflexivity.
  - reflexivity.
Defined.

(** X9.  The seek offset is zero until a seek has completed: in every
    reachable client whose seek phase is NEED_SEEK or IN_SEEK the offset is
    0, so the base time applied before a seek completes is
    base_time + base_time_offset. *)
Theorem seek_offset_zero_until_done (s : GstSyncClient) :
  reachable s -> seek_state s <> DONE_SEEK -> seek_offset s = 0.
Proof.
  intros (evs & calls & H).
  apply (run_invariant
           (fun s => seek_state s <> DONE_SEEK -> seek_offset s = 0))
    with (evs := evs) (s := gst_sync_client_init) (calls := calls).
  - intros ev env s0 s1 c Hh HP. eapply handle_offset_zero_until_done; eauto.
  - exact H.
  - reflexivity.
Qed.

Lemma seek_offset_zero_until_done_witness :
  seek_offset (Samples.client Samples.snapshot true IN_SEEK 0) = 0.
Proof.
  apply seek_offset_zero_until_done.
  - exists [(EvSyncInfo Samples.snapshot, Samples.answers 0 None true);
            (EvBus (statistics true), Samples.answers 0 None true);
            (EvBus play_transition,
             Samples.answers (1300 * GST_MSECOND) None true)].
    eexists. reflexivity.
  - cbn. discriminate.
Defined.

(** X10.  Bus messages alone make at most one seek per play cycle: from a
    synchronised client, any sequence of bus messages reads the clock at
    most once, seeks at most once and sets the base time at most once, and
    it neither reconfigures the pipeline nor commands paused or playing. *)
Theorem bus_messages_seek_at_most_once
    (ms : list (GstMessage * Env)) (s s' : GstSyncClient) (calls : list Call) :
  synchronised s = true ->
  run (bus_events ms) s = Some (tt, s', calls) ->
  (count_calls is_clock_read calls <= 1)%nat /\
  (count_calls is_seek calls <= 1)%nat /\
  (count_calls is_base_time calls <= 1)%nat /\
  existsb is_play_command calls = false /\
  existsb is_configuration calls = false.
Proof.
  intros Hsy Hrun.
  cut ((count_calls is_clock_read calls + seeks_left (seek_state s')
        <= seeks_left (seek_state s))%nat /\
       (count_calls is_seek calls + seeks_left (seek_state s')
        <= seeks_left (seek_state s))%nat /\
       (count_calls is_base_time calls + base_times_left (seek_state s')
        <= base_times_left (seek_state s))%nat /\
       existsb is_play_command calls = false /\
       existsb is_configuration calls = false).
  { intros (Hr & Hk & Hb & Hp & Hc).
    destruct (seek_state s), (seek_state s'); cbn in *; repeat split; auto; lia. }
  revert s s' calls Hsy Hrun.
  induction ms as [|[m env] rest IH]; intros s s' calls Hsy Hrun.
  - cbn in Hrun. inversion Hrun; subst. cbn. repeat split; lia.
  - cbn [bus_events map] in Hrun. apply run_step_inv in Hrun.
    destruct Hrun as (s1 & c1 & c2 & H1 & H2 & ->).
    destruct (handle_bus_synchronised m env s s1 c1 Hsy H1)
      as (Hsy1 & Hk1 & Hr1 & Hb1 & Hp1 & Hc1).
    destruct (IH s1 s' c2 Hsy1 H2) as (Hr2 & Hk2 & Hb2 & Hp2 & Hc2).
    rewrite !count_calls_app, !existsb_app, Hp1, Hp2, Hc1, Hc2.
    repeat split; lia.
Qed.

Lemma bus_messages_seek_at_most_once_witness :
  exists s' calls,
    run (bus_events
           [(play_transition, Samples.answers (1300 * GST_MSECOND) None true);
            (play_transition, Samples.answers (1900 * GST_MSECOND) None true);
            (GST_MESSAGE_ASYNC_DONE SrcPipeline,
             Samples.answers 0 (Some (310 * GST_MSECOND)) true);
            (GST_MESSAGE_ASYNC_DONE SrcPipeline,
             Samples.answers 0 (Some (900 * GST_MSECOND)) true)])
      (Samples.client Samples.snapshot true NEED_SEEK 0) = Some (tt, s', calls) /\
    (count_calls is_seek calls <= 1)%nat.
Proof.
  do 2 eexists. split; [reflexivity|].
  exact (proj1 (proj2 (bus_messages_seek_at_most_once
           [(play_transition, Samples.answers (1300 * GST_MSECOND) None true);
            (play_transition, Samples.answers (1900 * GST_MSECOND) None true);
            (GST_MESSAGE_ASYNC_DONE SrcPipeline,
             Samples.answers 0 (Some (310 * GST_MSECOND)) true);
            (GST_MESSAGE_ASYNC_DONE SrcPipeline,
             Samples.answers 0 (Some (900 * GST_MSECOND)) true)]
           (Samples.client Samples.snapshot true NEED_SEEK 0) _ _
           eq_refl eq_refl))).
Defined.

(** ** The bus handler *)

(** X11.  Delivering a state-change or seek-completion message a second
    time is harmless: whatever [bus_cb] did with the message the first time,
    on the client it left behind the same message does nothing.  (Each
    seek-completion message reaches [bus_cb] twice, through the sync-message
    signal and through the bus watch.) *)
Theorem bus_cb_redelivery_is_ignored
    (env env' : Env) (m : GstMessage) (s s1 : GstSyncClient) (r : bool)
    (c1 : list Call) :
  is_seek_message m = true ->
  bus_cb env m s = Some (r, s1, c1) ->
  bus_cb env' m s1 = Some (true, s1, []).
Proof.
  destruct m as [st|src o n|src|src|]; try discriminate; intros _.
  - destruct (state_change_acts s src o n) eqn:Ha.
    + destruct (info s) as [i|] eqn:Hi.
      * rewrite (bus_cb_state_changed_acts env s i src o n Hi Ha).
        intros H. inversion H; subst.
        apply bus_cb_state_changed_ignored.
        unfold state_change_acts, phase_after_play. cbn.
        destruct (_ >? _); [destruct (env_seek_simple _ _)|]; reflexivity.
      * destruct s as [? ? ? [| |] ?]; cbn in Hi; subst;
          destruct src, o, n; try discriminate Ha;
          unfold_handlers; cbn; discriminate.
    + rewrite (bus_cb_state_changed_ignored env s src o n Ha).
      intros H. inversion H; subst.
      now apply bus_cb_state_changed_ignored.
  - destruct (SeekState_eqb (seek_state s) IN_SEEK) eqn:Hin.
    + assert (Hs : seek_state s = IN_SEEK) by (destruct (seek_state s); easy).
      destruct (info s) as [i|] eqn:Hi.
      * rewrite (bus_cb_async_done_eq env s i src Hi Hs).
        intros H. inversion H; subst.
        apply bus_cb_async_done_ignored. cbn. discriminate.
      * destruct s as [? ? ? ? ?]; cbn in Hi, Hs; subst.
        unfold_handlers. cbn.
        destruct (env_query_position env);
          [|destruct (env_query_failed_store env)]; cbn;
          intros H; try discriminate; inversion H; subst; reflexivity.
    + assert (Hs : seek_state s <> IN_SEEK)
        by (intros E; rewrite E in Hin; discriminate).
      rewrite (bus_cb_async_done_ignored env s src Hs).
      intros H. inversion H; subst.
      now apply bus_cb_async_done_ignored.
Qed.

Lemma bus_cb_redelivery_is_ignored_witness :
  bus_cb (Samples.answers 0 (Some 5) true) (GST_MESSAGE_ASYNC_DONE SrcPipeline)
    (Samples.client Samples.snapshot true DONE_SEEK (310 * GST_MSECOND)) =
    Some (true,
          Samples.client Samples.snapshot true DONE_SEEK (310 * GST_MSECOND), []).
Proof.
  exact (bus_cb_redelivery_is_ignored
           (Samples.answers 0 (Some (310 * GST_MSECOND)) true)
           (Samples.answers 0 (Some 5) true)
           (GST_MESSAGE_ASYNC_DONE SrcPipeline)
           (Samples.client Samples.snapshot true IN_SEEK 0)
           (Samples.client Samples.snapshot true DONE_SEEK (310 * GST_MSECOND))
           true _ eq_refl eq_refl).
Defined.

(** X12.  When the seek cannot be submitted, [bus_cb] raises a warning and
    closes the seek phase at once; the seek-completion message that may
    still arrive is then ignored, so the base time is left uncorrected. *)
Theorem bus_cb_seek_failure_closes_phase
    (env : Env) (s : GstSyncClient) (i : GstSyncServerInfo) :
  info s = Some i -> seek_state s = NEED_SEEK ->
  position_at (env_clock_get_time env) i > DEFAULT_SEEK_TOLERANCE ->
  env_seek_simple env (position_at (env_clock_get_time env) i) = false ->
  bus_cb env play_transition s =
    Some (true, with_seek DONE_SEEK (seek_offset s) s,
          [CallClockGetTime;
           CallSeekSimple (position_at (env_clock_get_time env) i);
           Warning "Could not perform seek"]) /\
  forall env' src,
    bus_cb env' (GST_MESSAGE_ASYNC_DONE src)
      (with_seek DONE_SEEK (seek_offset s) s) =
      Some (true, with_seek DONE_SEEK (seek_offset s) s, []).
Proof.
  intros Hi Hs Hgt Hfail. split.
  - unfold play_transition.
    rewrite (bus_cb_state_changed_acts env s i _ _ _ Hi)
      by (unfold state_change_acts; rewrite Hs; reflexivity).
    unfold phase_after_play, seek_calls. apply Z.gtb_gt in Hgt.
    rewrite Hgt, Hfail. reflexivity.
  - intros env' src. apply bus_cb_async_done_ignored. cbn. discriminate.
Qed.

Lemma bus_cb_seek_failure_closes_phase_witness :
  bus_cb {| env_set_state := fun _ => GST_STATE_CHANGE_ASYNC;
            env_seek_simple := fun _ => false;
            env_query_position := None;
            env_query_failed_store := Some GST_CLOCK_TIME_NONE;
            env_clock_get_time := 1300 * GST_MSECOND;
            env_clock_wait_for_sync := true;
            env_is_live := false |}
    play_transition (Samples.client Samples.snapshot true NEED_SEEK 0) =
    Some (true, Samples.client Samples.snapshot true DONE_SEEK 0,
          [CallClockGetTime; CallSeekSimple (300 * GST_MSECOND);
           Warning "Could not perform seek"]).
Proof.
  refine (proj1 (bus_cb_seek_failure_closes_phase
            {| env_set_state := fun _ => GST_STATE_CHANGE_ASYNC;
               env_seek_simple := fun _ => false;
               env_query_position := None;
               env_query_failed_store := Some GST_CLOCK_TIME_NONE;
               env_clock_get_time := 1300 * GST_MSECOND;
               env_clock_wait_for_sync := true;
               env_is_live := false |}
            (Samples.client Samples.snapshot true NEED_SEEK 0)
            Samples.snapshot eq_refl eq_refl _ eq_refl)).
  vm_compute. reflexivity.
Defined.

(** X13.  A live pipeline is never seeked: when the paused command answers
    GST_STATE_CHANGE_NO_PREROLL, [update_pipeline] leaves the seek phase at
    DONE_SEEK with offset zero, and every later state-change or
    seek-completion message is ignored, without even reading the clock. *)
Theorem live_pipeline_never_seeks
    (env : Env) (s : GstSyncClient) (i : GstSyncServerInfo) :
  info s = Some i -> stopped i = false ->
  env_set_state env GST_STATE_PAUSED = GST_STATE_CHANGE_NO_PREROLL ->
  update_pipeline env s =
    Some (tt, with_seek DONE_SEEK 0 s,
          [CallSetUri (uri i); CallSetLatency (latency i);
           CallSetState GST_STATE_PAUSED] ++ play_calls i) /\
  forall env' m,
    is_seek_message m = true ->
    bus_cb env' m (with_seek DONE_SEEK 0 s) =
      Some (true, with_seek DONE_SEEK 0 s, []).
Proof.
  intros Hi Hs Hlive. split.
  - rewrite (update_pipeline_started_eq env s i Hi Hs), Hlive. reflexivity.
  - intros env' [st|src o n|src|src|] Hm; try discriminate Hm.
    + apply bus_cb_state_changed_ignored. reflexivity.
    + apply bus_cb_async_done_ignored. cbn. discriminate.
Qed.

Lemma live_pipeline_never_seeks_witness :
  bus_cb (Samples.answers (1300 * GST_MSECOND) None true) play_transition
    (Samples.client Samples.snapshot true DONE_SEEK 0) =
    Some (true, Samples.client Samples.snapshot true DONE_SEEK 0, []).
Proof.
  exact (proj2 (live_pipeline_never_seeks
           {| env_set_state := fun _ => GST_STATE_CHANGE_NO_PREROLL;
              env_seek_simple := fun _ => true;
              env_query_position := None;
              env_query_failed_store := Some GST_CLOCK_TIME_NONE;
              env_clock_get_time := 0;
              env_clock_wait_for_sync := true;
              env_is_live := false |}
           (Samples.client Samples.snapshot true NEED_SEEK 7)
           Samples.snapshot eq_refl eq_refl eq_refl)
           (Samples.answers (1300 * GST_MSECOND) None true)
           play_transition eq_refl).
Defined.

(** X14.  An element message is ignored, leaving the client as it is and
    making no call (in particular not waiting for the clock), when the
    client is already synchronised, when the structure is not named
    gst-netclock-statistics, when it carries no boolean named synchronised,
    or when that boolean is FALSE. *)
Theorem bus_cb_element_ignored
    (env : Env) (st : GstStructure) (s : GstSyncClient) :
  synchronised s = true \/
  st_name st <> "gst-netclock-statistics"%string \/
  st_synchronised st = None \/
  st_synchronised st = Some false ->
  bus_cb env (GST_MESSAGE_ELEMENT st) s = Some (true, s, []).
Proof.
  destruct s as [? ? [|] ? ?]; destruct st as [nm fl]; cbn;
    intros H; unfold_handlers; cbn; [reflexivity|].
  destruct H as [H|[H|[H|H]]]; try discriminate H.
  - apply String.eqb_neq in H. rewrite H. reflexivity.
  - subst fl. destruct (String.eqb nm _); reflexivity.
  - subst fl. destruct (String.eqb nm _); reflexivity.
Qed.

Lemma bus_cb_element_ignored_witness :
  bus_cb (Samples.answers 0 None true)
    (GST_MESSAGE_ELEMENT
       {| st_name := "gst-netclock-statistics"; st_synchronised := None |})
    (Samples.client Samples.snapshot false NEED_SEEK 0) =
    Some (true, Samples.client Samples.snapshot false NEED_SEEK 0, []).
Proof.
  exact (bus_cb_element_ignored (Samples.answers 0 None true)
           {| st_name := "gst-netclock-statistics"; st_synchronised := None |}
           (Samples.client Samples.snapshot false NEED_SEEK 0)
           (or_intror (or_intror (or_introl eq_refl)))).
Defined.

(** X15.  A failed wait is not final: after a statistics message whose
    bounded wait timed out, the next statistics message reporting
    synchronisation waits again, and when that wait succeeds the pipeline is
    started with [update_pipeline] and the client is synchronised. *)
Theorem sync_is_retried_after_timeout
    (env1 env2 : Env) (s : GstSyncClient) (i : GstSyncServerInfo) :
  info s = Some i -> synchronised s = false ->
  env_clock_wait_for_sync env1 = false ->
  env_clock_wait_for_sync env2 = true ->
  exists s' calls,
    update_pipeline env2 (with_synchronised true s) = Some (tt, s', calls) /\
    run (bus_events [(statistics true, env1); (statistics true, env2)]) s =
      Some (tt, s',
            [CallClockWaitForSync (10 * GST_SECOND);
             Error "Could not synchronise clock";
             CallClockWaitForSync (10 * GST_SECOND)] ++ calls) /\
    synchronised s' = true.
Proof.
  intros Hi Hsy Hw1 Hw2.
  destruct (update_pipeline_total env2 (with_synchronised true s) i)
    as (s' & calls & Hup & _ & _ & Hsy' & _).
  { destruct s; exact Hi. }
  exists s', calls. split; [exact Hup|]. split; [|exact Hsy'].
  destruct s as [? ? sy ? ?]. cbn in Hi, Hsy. subst.
  unfold with_synchronised in Hup.
  cbn [info clock synchronised seek_state seek_offset] in Hup.
  cbn [bus_events map run]. unfold handle, statistics, bus_cb,
    bus_cb_element_until_wait, bus_cb_element_from_wait.
  unfold_monad. cbn. rewrite String.eqb_refl. cbn.
  rewrite Hw1. cbn. rewrite ?String.eqb_refl. cbn. rewrite Hw2. cbn.
  rewrite Hup. cbn. rewrite !app_nil_r. reflexivity.
Qed.

Lemma sync_is_retried_after_timeout_witness :
  exists s' calls,
    run (bus_events [(statistics true, Samples.answers 0 None false);
                     (statistics true, Samples.answers 0 None true)])
      (Samples.client Samples.snapshot false NEED_SEEK 0) =
      Some (tt, s',
            [CallClockWaitForSync (10 * GST_SECOND);
             Error "Could not synchronise clock";
             CallClockWaitForSync (10 * GST_SECOND)] ++ calls) /\
    synchronised s' = true.
Proof.
  destruct (sync_is_retried_after_timeout
              (Samples.answers 0 None false) (Samples.answers 0 None true)
              (Samples.client Samples.snapshot false NEED_SEEK 0)
              Samples.snapshot eq_refl eq_refl eq_refl eq_refl)
    as (s' & calls & _ & Hrun & Hsy).
  exists s', calls. split; assumption.
Defined.

(** X16.  Messages other than element messages only ever move the seek
    phase forward (NEED_SEEK, IN_SEEK, DONE_SEEK): [bus_cb] returns TRUE,
    leaves the snapshot, the clock and the synchronised flag alone, never
    lowers the phase, and changes the seek offset only on the step from
    IN_SEEK to DONE_SEEK, to what the position query stored in it: the
    position reported, or what a failing query left behind. *)
Theorem bus_cb_seek_phase_only_advances
    (env : Env) (m : GstMessage) (s s' : GstSyncClient) (r : bool)
    (calls : list Call) :
  is_element m = false ->
  bus_cb env m s = Some (r, s', calls) ->
  r = true /\
  info s' = info s /\ clock s' = clock s /\
  synchronised s' = synchronised s /\
  (seek_rank (seek_state s) <= seek_rank (seek_state s'))%nat /\
  (seek_offset s' <> seek_offset s ->
   seek_state s = IN_SEEK /\ seek_state s' = DONE_SEEK /\
   (env_query_position env = Some (seek_offset s') \/
    (env_query_position env = None /\
     env_query_failed_store env = Some (seek_offset s')))).
Proof.
  destruct s as [[i|] ? ? [| |] ?]; destruct m as [st|src o n|src|src|];
    try discriminate; intros _ H; revert H;
    unfold_handlers; handler_cases; intros H;
    try discriminate; inversion H; subst; cbn;
    repeat split; try lia; try (intros Hne; now contradiction Hne);
    try congruence; auto.
Qed.

Lemma bus_cb_seek_phase_only_advances_witness :
  (seek_rank IN_SEEK <= seek_rank DONE_SEEK)%nat.
Proof.
  exact (proj1 (proj2 (proj2 (proj2 (proj2
    (bus_cb_seek_phase_only_advances
       (Samples.answers 0 (Some (310 * GST_MSECOND)) true)
       (GST_MESSAGE_ASYNC_DONE SrcPipeline)
       (Samples.client Samples.snapshot true IN_SEEK 0)
       (Samples.client Samples.snapshot true DONE_SEEK (310 * GST_MSECOND))
       true _ eq_refl eq_refl)))))).
Defined.

(** X17.  A whole play cycle.  Started on a snapshot that is neither
    stopped nor paused, with a pipeline that prerolls, a clock reading that
    puts the position beyond the tolerance, a seek that is accepted and a
    position query answering [p]: the three handlers in a row apply the
    base time without offset, play, seek to the position, and on completion
    apply the base time again with [p] folded in; the client ends in
    DONE_SEEK with seek offset [p]. *)
Theorem play_cycle_with_seek
    (env1 env2 env3 : Env) (s : GstSyncClient) (i : GstSyncServerInfo)
    (src : MsgSrc) (p : GstClockTime) :
  info s = Some i -> stopped i = false -> paused i = false ->
  env_set_state env1 GST_STATE_PAUSED = GST_STATE_CHANGE_SUCCESS \/
  env_set_state env1 GST_STATE_PAUSED = GST_STATE_CHANGE_ASYNC ->
  position_at (env_clock_get_time env2) i > DEFAULT_SEEK_TOLERANCE ->
  env_seek_simple env2 (position_at (env_clock_get_time env2) i) = true ->
  env_query_position env3 = Some p ->
  (update_pipeline env1 ;;;
   bus_cb env2 play_transition ;;;
   bus_cb env3 (GST_MESSAGE_ASYNC_DONE src)) s =
    Some (true, with_seek DONE_SEEK p s,
          [CallSetUri (uri i); CallSetLatency (latency i);
           CallSetState GST_STATE_PAUSED;
           CallSetStartTime GST_CLOCK_TIME_NONE;
           CallSetBaseTime (effective_base_time i 0);
           CallSetState GST_STATE_PLAYING;
           CallClockGetTime;
           CallSeekSimple (position_at (env_clock_get_time env2) i);
           CallQueryPosition;
           CallSetStartTime GST_CLOCK_TIME_NONE;
           CallSetBaseTime (effective_base_time i p)]).
Proof.
  intros Hi Hst Hpa Hpre Hgt Hseek Hq.
  unfold bind. rewrite (update_pipeline_started_eq env1 s i Hi Hst).
  unfold play_transition, play_calls. rewrite Hpa.
  apply Z.gtb_gt in Hgt.
  destruct s as [? ? ? ? ?]; cbn in Hi; subst;
    destruct Hpre as [Hr|Hr]; rewrite Hr; cbn [phase_after_start];
    (rewrite (bus_cb_state_changed_acts env2 _ i) by reflexivity);
    unfold phase_after_play, seek_calls;
    cbn [info clock synchronised seek_state seek_offset];
    rewrite Hgt, Hseek;
    (rewrite (bus_cb_async_done_eq env3 _ i) by reflexivity);
    unfold offset_after_query; rewrite Hq; reflexivity.
Qed.

Lemma play_cycle_with_seek_witness :
  (update_pipeline (Samples.answers 0 None true) ;;;
   bus_cb (Samples.answers (1300 * GST_MSECOND) None true) play_transition ;;;
   bus_cb (Samples.answers 0 (Some (310 * GST_MSECOND)) true)
     (GST_MESSAGE_ASYNC_DONE SrcPipeline))
    (Samples.client Samples.snapshot true DONE_SEEK 7) =
    Some (true,
          Samples.client Samples.snapshot true DONE_SEEK (310 * GST_MSECOND),
          [CallSetUri "file:///a.ogg"; CallSetLatency (300 * GST_MSECOND);
           CallSetState GST_STATE_PAUSED;
           CallSetStartTime GST_CLOCK_TIME_NONE;
           CallSetBaseTime (1000 * GST_MSECOND);
           CallSetState GST_STATE_PLAYING;
           CallClockGetTime; CallSeekSimple (300 * GST_MSECOND);
           CallQueryPosition;
           CallSetStartTime GST_CLOCK_TIME_NONE;
           CallSetBaseTime (1310 * GST_MSECOND)]).
Proof.
  refine (play_cycle_with_seek
            (Samples.answers 0 None true)
            (Samples.answers (1300 * GST_MSECOND) None true)
            (Samples.answers 0 (Some (310 * GST_MSECOND)) true)
            (Samples.client Samples.snapshot true DONE_SEEK 7)
            Samples.snapshot SrcPipeline (310 * GST_MSECOND)
            eq_refl eq_refl eq_refl (or_intror eq_refl) _ eq_refl eq_refl).
  vm_compute. reflexivity.
Defined.

(** X18.  A client started from a paused snapshot still owes its seek when
    it is unpaused: [update_pipeline] stops at the paused state with the
    phase NEED_SEEK, and the unpausing update applies the base time of the
    new snapshot and plays without touching the phase, so the
    paused-to-playing message that follows is the one that seeks. *)
Theorem paused_start_keeps_seek_pending
    (env1 env2 : Env) (s : GstSyncClient) (i i' : GstSyncServerInfo) :
  info s = Some i -> stopped i = false -> paused i = true ->
  env_set_state env1 GST_STATE_PAUSED = GST_STATE_CHANGE_SUCCESS \/
  env_set_state env1 GST_STATE_PAUSED = GST_STATE_CHANGE_ASYNC ->
  stopped i' = false -> uri i' = uri i -> paused i' = false ->
  (update_pipeline env1 ;;; update_sync_info env2 i') s =
    Some (tt, with_seek NEED_SEEK 0 (with_info i' s),
          [CallSetUri (uri i); CallSetLatency (latency i);
           CallSetState GST_STATE_PAUSED;
           CallSetStartTime GST_CLOCK_TIME_NONE;
           CallSetBaseTime (effective_base_time i' 0);
           CallSetState GST_STATE_PLAYING]).
Proof.
  intros Hi Hst Hpa Hpre Hst' Hu' Hpa'.
  unfold bind. rewrite (update_pipeline_started_eq env1 s i Hi Hst).
  rewrite (unpause_branch_eq env2 _ i i')
    by (destruct s; cbn in *; repeat split; congruence).
  unfold play_calls. rewrite Hpa.
  destruct s, Hpre as [Hr|Hr]; rewrite Hr; reflexivity.
Qed.

Lemma paused_start_keeps_seek_pending_witness :
  (update_pipeline (Samples.answers 0 None true) ;;;
   update_sync_info (Samples.answers 0 None true) Samples.snapshot)
    (Samples.client (Samples.with_flags false true Samples.snapshot)
       true DONE_SEEK 7) =
    Some (tt, Samples.client Samples.snapshot true NEED_SEEK 0,
          [CallSetUri "file:///a.ogg"; CallSetLatency (300 * GST_MSECOND);
           CallSetState GST_STATE_PAUSED;
           CallSetStartTime GST_CLOCK_TIME_NONE;
           CallSetBaseTime (1000 * GST_MSECOND);
           CallSetState GST_STATE_PLAYING]).
Proof.
  exact (paused_start_keeps_seek_pending
           (Samples.answers 0 None true) (Samples.answers 0 None true)
           (Samples.client (Samples.with_flags false true Samples.snapshot)
              true DONE_SEEK 7)
           (Samples.with_flags false true Samples.snapshot) Samples.snapshot
           eq_refl eq_refl eq_refl (or_intror eq_refl)
           eq_refl eq_refl eq_refl).
Defined.

(** X19.  Once a snapshot is stored [bus_cb] never reads a NULL snapshot:
    on every message and every answer of the outside world it completes,
    returns TRUE (so the bus watch stays installed) and leaves the stored
    snapshot in place. *)
Theorem bus_cb_completes_and_keeps_snapshot
    (env : Env) (m : GstMessage) (s : GstSyncClient) (i : GstSyncServerInfo) :
  info s = Some i ->
  exists s' calls,
    bus_cb env m s = Some (true, s', calls) /\
    info s' = Some i /\ clock s' = clock s.
Proof.
  intros H. open_client s H. destruct m as [st|src o n|src|src|];
    unfold_handlers; handler_cases;
    do 2 eexists; split; try reflexivity; split; reflexivity.
Qed.

Lemma bus_cb_completes_and_keeps_snapshot_witness :
  exists s' calls,
    bus_cb (Samples.refusing true) (statistics true)
      (Samples.client Samples.snapshot false DONE_SEEK 7) =
      Some (true, s', calls) /\
    info s' = Some Samples.snapshot.
Proof.
  destruct (bus_cb_completes_and_keeps_snapshot (Samples.refusing true)
              (statistics true)
              (Samples.client Samples.snapshot false DONE_SEEK 7)
              Samples.snapshot eq_refl)
    as (s' & calls & Hrun & Hinfo & _).
  exists s', calls. split; assumption.
Defined.

(** ** Starting the client *)

(** X20.  [gst_sync_client_start] refuses an object that does not implement
    the control-client interface: it returns FALSE without configuring,
    connecting or starting anything. *)
Theorem start_rejects_non_control_client
    (started : bool) (c : ControlSettings) (id : Z) :
  client c = Some (CustomObject id false) ->
  gst_sync_client_start started c = (false, c, []).
Proof.
  intros H. unfold gst_sync_client_start. rewrite H. cbn. rewrite H.
  reflexivity.
Qed.

Lemma start_rejects_non_control_client_witness :
  gst_sync_client_start true
    {| control_addr := Some "10.0.0.1"%string; control_port := 3695;
       client := Some (CustomObject 1 false) |} =
    (false,
     {| control_addr := Some "10.0.0.1"%string; control_port := 3695;
        client := Some (CustomObject 1 false) |}, []).
Proof.
  exact (start_rejects_non_control_client true
           {| control_addr := Some "10.0.0.1"%string; control_port := 3695;
              client := Some (CustomObject 1 false) |} 1 eq_refl).
Defined.

(** X21.  With a control client in place, [gst_sync_client_start] hands it
    the address and the port only when an address is set (a port set without
    an address is not passed on), connects the snapshot notification, starts
    the control client and returns that start's answer; the notification
    stays connected when the start fails. *)
Theorem start_forwards_endpoint_only_with_address
    (started : bool) (c : ControlSettings) (o : ControlObject) :
  client c = Some o -> GST_IS_SYNC_CONTROL_CLIENT (Some o) = true ->
  gst_sync_client_start started c =
    (started, c,
     endpoint_calls o c ++ [CtlConnectSyncInfoNotify o; CtlStart o]) /\
  (control_addr c = None -> endpoint_calls o c = []).
Proof.
  intros H Hok. unfold gst_sync_client_start, endpoint_calls.
  rewrite H. cbn. rewrite H, Hok. cbn. split; [reflexivity|].
  intros Ha. rewrite Ha. reflexivity.
Qed.

Lemma start_forwards_endpoint_only_with_address_witness :
  gst_sync_client_start false
    {| control_addr := None; control_port := 3695;
       client := Some (CustomObject 1 true) |} =
    (false,
     {| control_addr := None; control_port := 3695;
        client := Some (CustomObject 1 true) |},
     [CtlConnectSyncInfoNotify (CustomObject 1 true);
      CtlStart (CustomObject 1 true)]).
Proof.
  exact (proj1 (start_forwards_endpoint_only_with_address false
           {| control_addr := None; control_port := 3695;
              client := Some (CustomObject 1 true) |}
           (CustomObject 1 true) eq_refl eq_refl)).
Defined.

(** X22.  Without a control client, [gst_sync_client_start] makes the
    built-in TCP client, keeps it and starts it.  Starting a second time
    reuses that client (no second one is made) and connects the snapshot
    notification once more, so that it is then connected twice. *)
Theorem start_makes_tcp_client_once
    (a b : bool) (c : ControlSettings) :
  client c = None ->
  exists c1 l1 l2,
    gst_sync_client_start a c = (a, c1, l1) /\
    client c1 = Some TcpControlClient /\
    control_addr c1 = control_addr c /\ control_port c1 = control_port c /\
    l1 = CtlNewTcpClient
           :: endpoint_calls TcpControlClient c
           ++ [CtlConnectSyncInfoNotify TcpControlClient;
               CtlStart TcpControlClient] /\
    gst_sync_client_start b c1 = (b, c1, l2) /\
    List.length (filter is_new_tcp_client (l1 ++ l2)) = 1%nat /\
    List.length (filter is_connect_notify (l1 ++ l2)) = 2%nat.
Proof.
  intros H. destruct c as [addr port cl]. cbn in H. subst cl.
  unfold gst_sync_client_start, endpoint_calls. cbn.
  do 3 eexists. repeat split.
  - destruct addr; reflexivity.
  - destruct addr; reflexivity.
Qed.

Lemma start_makes_tcp_client_once_witness :
  exists c1 l1,
    gst_sync_client_start true control_init = (true, c1, l1) /\
    client c1 = Some TcpControlClient /\
    l1 = [CtlNewTcpClient; CtlConnectSyncInfoNotify TcpControlClient;
          CtlStart TcpControlClient].
Proof.
  destruct (start_makes_tcp_client_once true true control_init eq_refl)
    as (c1 & l1 & l2 & H1 & Hc & _ & _ & Hl & _).
  exists c1, l1. repeat split; assumption.
Defined.

(** ** Across handlers *)

(** X23.  After an end-of-stream from the pipeline the client only waits:
    the pipeline is commanded to NULL, and a snapshot that then arrives with
    the same stopped, uri, paused and base_time as the stored one restarts
    nothing; the seek fields stay as the finished cycle left them. *)
Theorem eos_waits_for_changed_snapshot
    (env env' : Env) (s : GstSyncClient) (i i' : GstSyncServerInfo) :
  info s = Some i -> same_diffed_fields i i' = true ->
  run [(EvBus (GST_MESSAGE_EOS SrcPipeline), env); (EvSyncInfo i', env')] s =
    Some (tt, with_info i' s, [CallSetState GST_STATE_NULL]).
Proof.
  unfold same_diffed_fields. intros H Hsame. open_client s H.
  apply andb_true_iff in Hsame. destruct Hsame as [Hsame Hb].
  apply andb_true_iff in Hsame. destruct Hsame as [Hsame Hp].
  apply andb_true_iff in Hsame. destruct Hsame as [Hst Hu].
  cbn [run]. unfold handle, bus_cb, update_sync_info. unfold_monad. cbn.
  rewrite Hst, Hu, Hp, Hb. reflexivity.
Qed.

Lemma eos_waits_for_changed_snapshot_witness :
  run [(EvBus (GST_MESSAGE_EOS SrcPipeline), Samples.answers 0 None true);
       (EvSyncInfo (Samples.with_offset 9 Samples.snapshot),
        Samples.answers 0 None true)]
    (Samples.client Samples.snapshot true DONE_SEEK 7) =
    Some (tt,
          Samples.client (Samples.with_offset 9 Samples.snapshot)
            true DONE_SEEK 7,
          [CallSetState GST_STATE_NULL]).
Proof.
  exact (eos_waits_for_changed_snapshot
           (Samples.answers 0 None true) (Samples.answers 0 None true)
           (Samples.client Samples.snapshot true DONE_SEEK 7)
           Samples.snapshot (Samples.with_offset 9 Samples.snapshot)
           eq_refl eq_refl).
Defined.

(** X24.  Only the first snapshot waits for the clock.  A second snapshot
    that is neither stopped nor paused and differs from the first in a way
    that restarts the pipeline is played at once, although the client is
    not synchronised: [update_sync_info] does not look at the flag and does
    not wait for the clock. *)
Theorem later_snapshot_plays_without_sync
    (env0 env1 : Env) (i0 i1 : GstSyncServerInfo) :
  stopped i1 = false -> paused i1 = false ->
  stopped i0 = true \/ uri i0 <> uri i1 \/
  (paused i0 = paused i1 /\ base_time i0 <> base_time i1) ->
  exists s calls,
    run [(EvSyncInfo i0, env0); (EvSyncInfo i1, env1)] gst_sync_client_init =
      Some (tt, s, calls) /\
    synchronised s = false /\
    count_calls is_playing_command calls = 1%nat /\
    In (CallSetBaseTime (effective_base_time i1 0)) calls /\
    forallb (fun c => match c with CallClockWaitForSync _ => false | _ => true end)
      calls = true.
Proof.
  intros Hst Hpa Hor.
  destruct (first_update_stores_and_connects env0 gst_sync_client_init i0 eq_refl)
    as (s1 & H1 & Hi1 & _).
  assert (Hsy1 : synchronised s1 = false).
  { cbn in H1. inversion H1. reflexivity. }
  assert (H2 := restart_branch_eq env1 s1 i0 i1 Hi1 Hst Hor).
  do 2 eexists. split.
  - eapply run_step; [exact H1|]. cbn [run]. unfold bind.
    change (handle (EvSyncInfo i1) env1 s1) with (update_sync_info env1 i1 s1).
    rewrite H2. reflexivity.
  - unfold play_calls, play_warning. rewrite Hpa. cbn. rewrite Hsy1.
    destruct (env_set_state env1 GST_STATE_PAUSED); cbn;
      repeat split; auto 20.
Qed.

Lemma later_snapshot_plays_without_sync_witness :
  exists s calls,
    run [(EvSyncInfo Samples.snapshot, Samples.answers 0 None false);
         (EvSyncInfo (Samples.with_base_time 5 Samples.snapshot),
          Samples.answers 0 None false)]
      gst_sync_client_init = Some (tt, s, calls) /\
    synchronised s = false /\
    count_calls is_playing_command calls = 1%nat.
Proof.
  destruct (later_snapshot_plays_without_sync
              (Samples.answers 0 None false) (Samples.answers 0 None false)
              Samples.snapshot (Samples.with_base_time 5 Samples.snapshot)
              eq_refl eq_refl)
    as (s & calls & Hrun & Hsy & Hplay & _).
  - right. right. split; [reflexivity|]. vm_compute. discriminate.
  - exists s, calls. repeat split; assumption.
Defined.
